(** * OpenSeaBot: a shallow embedding of [OpenSeaBot.js] and [config.js]

    The bot is a single JavaScript class whose methods are [async]
    functions talking to four outside parties: the OpenSea HTTP API (through
    axios), the Seaport client, the chain (provider, wallet, WETH contract)
    and the clock.  The embedding keeps the control flow of every method
    ([await] sequencing, [try]/[catch], [throw], the [for ... of] loop, the
    [while (true)] loop) and replaces the outside parties by oracles over an
    abstract world.  Every call that leaves the process is recorded in a
    trace, so that statements such as "no transaction is submitted" are
    statements about the trace.

    Numbers: JavaScript numbers are IEEE 754 binary64 values and are embedded
    as Rocq's primitive floats; ethers [BigNumber]s are unbounded integers and
    are embedded as [Z]; durations passed to [setTimeout] are whole
    milliseconds and are embedded as [Z]. *)

From Stdlib Require Import ZArith List String Bool Lia Floats DecimalString.

Set Warnings "-inexact-float".
Import ListNotations.

Open Scope string_scope.
Open Scope Z_scope.

(** ** JavaScript values and errors *)

(** The leaf values that cross the boundary untyped: header values, hashes,
    addresses taken from a JSON reply. *)
Inductive jsval : Type :=
| JUndefined
| JString (s : string)
| JNumber (n : Z).

(** JavaScript truthiness, as used by [!x], [a || b] and [x?.y]. *)
Definition truthy (v : jsval) : bool :=
  match v with
  | JUndefined => false
  | JString s => negb (String.eqb s "")
  | JNumber n => negb (n =? 0)
  end.

(** A value inside a template literal. *)
Definition template (v : jsval) : string :=
  match v with
  | JUndefined => "undefined"
  | JString s => s
  | JNumber n => NilZero.string_of_int (Z.to_int n)
  end.

(** A thrown value.  Everything thrown in this program is an [Error]
    object, of which only [.message] is ever read. *)
Record JsError : Type := Error { message : string }.

Inductive Res (A : Type) : Type :=
| Ok (a : A)
| Throw (e : JsError).
Arguments Ok {A} a.
Arguments Throw {A} e.

(** ** config.js *)

Definition Address := string.
Definition TokenId := string.

Definition WETH_ADDRESS : Address := "Example-0xC02aaA39b223FE8D0A0e5C4F27eAD9083C756Cc2".
Definition SEAPORT_ADDRESS : Address := "Example-0x00000000000001ad428e4906aE43D8F9852d0dD6".
Definition OPENSEA_API_URL : string := "Example-https://api.opensea.io/api/v1".

Record Config : Type := {
  buyThreshold : float;
  offerPercentage : float;
  maxGasPrice : float;
  pollingInterval : Z;
  errorRetryDelay : Z
}.

Definition DEFAULT_CONFIG : Config := {|
  buyThreshold := 0.1%float;
  offerPercentage := 0.8%float;
  maxGasPrice := 50%float;
  pollingInterval := 60000;
  errorRetryDelay := 30000
|}.

(** The [config] argument of the constructor: an object literal in which
    every key may be absent. *)
Record ConfigOverrides : Type := {
  o_buyThreshold : option float;
  o_offerPercentage : option float;
  o_maxGasPrice : option float;
  o_pollingInterval : option Z;
  o_errorRetryDelay : option Z
}.

Definition no_overrides : ConfigOverrides :=
  {| o_buyThreshold := None; o_offerPercentage := None; o_maxGasPrice := None;
     o_pollingInterval := None; o_errorRetryDelay := None |}.

Definition override {A : Type} (d : A) (o : option A) : A :=
  match o with Some v => v | None => d end.

(** [{ ...DEFAULT_CONFIG, ...config }]: keys of [config] win. *)
Definition spread (d : Config) (o : ConfigOverrides) : Config := {|
  buyThreshold := override (buyThreshold d) (o_buyThreshold o);
  offerPercentage := override (offerPercentage d) (o_offerPercentage o);
  maxGasPrice := override (maxGasPrice d) (o_maxGasPrice o);
  pollingInterval := override (pollingInterval d) (o_pollingInterval o);
  errorRetryDelay := override (errorRetryDelay d) (o_errorRetryDelay o)
|}.

(** ** Data exchanged with the collaborators *)

(** An asset event of the [/events] endpoint, reduced to the fields that
    [monitorCollection] reads.  [ending_price] is the price in wei. *)
Record AssetContract : Type := { address : Address }.
Record Asset : Type := { token_id : TokenId; asset_contract : AssetContract }.
Record Listing : Type := { asset : option Asset; ending_price : Z }.

(** Payloads the bot only carries from one collaborator to the next. *)
Definition ProtocolData := string.
Definition SignedOrder := string.
Definition Action := string.
Definition OrderHandle := string.
Definition TxHandle := string.

Record Order : Type := { protocol_data : ProtocolData }.

Record EventsData : Type := { asset_events : option (list Listing) }.
Record EventsResponse : Type := { events_data : option EventsData }.

Record ListingsData : Type := { orders : option (list Order) }.
Record ListingsResponse : Type := { listings_data : option ListingsData }.

Record ContractData : Type := {
  payout_address : jsval;
  dev_seller_fee_basis_points : option Z
}.
Record ContractResponse : Type := { contract_data : option ContractData }.

Record PostData : Type := { order_hash : jsval }.
Record PostResponse : Type := { post_data : option PostData }.

Record Request : Type := {
  url : string;
  params : list (string * jsval);
  x_api_key : jsval
}.

Record Transaction : Type := {
  tx_request : string;
  gasPrice : option Z;
  gasLimit : option Z
}.

Record TxResponse : Type := { hash : jsval; tx_handle : TxHandle }.
Record Receipt : Type := { status : option Z }.

Inductive ItemType : Type := ERC20 | ERC721.

Record OfferItem : Type := {
  oi_itemType : ItemType;
  oi_token : Address;
  oi_amount : Z
}.

Record ConsiderationItem : Type := {
  ci_itemType : ItemType;
  ci_token : Address;
  ci_identifier : option TokenId;
  ci_amount : option Z;
  ci_recipient : jsval
}.

Record OrderTerms : Type := {
  offer : list OfferItem;
  consideration : list ConsiderationItem;
  endTime : Z
}.

Record RoyaltyInfo : Type := {
  recipient : jsval;
  basisPoints : option Z
}.

Record PurchaseResult : Type := {
  txHash : jsval;
  nftId : TokenId;
  price : float
}.

Record OfferResult : Type := {
  orderHash : jsval;
  offerAmount : float;
  expiration : Z
}.

(** ** The instance *)

Record Provider : Type := { connection_url : string }.
Record Wallet : Type := { wallet_address : Address; wallet_provider : Provider }.
Record Seaport : Type := { seaport_signer : Wallet; seaport_contractAddress : Address }.

(** The properties of [this] that the methods read.  The first five are
    assigned by the constructor.  [openseaApiKey] is read by the four request
    methods; a property that was never assigned reads as [undefined]. *)
Record Bot : Type := {
  provider : Provider;
  wallet : Wallet;
  seaport : Seaport;
  config : Config;
  maxGasPriceWei : Z;
  openseaApiKey : jsval
}.

(** ** Everything that leaves the process *)

Inductive Event : Type :=
| EAxiosGet (r : Request)
| EAxiosPost (r : Request) (body : SignedOrder)
| ESeaportValidate (orders : list ProtocolData) (account : Address)
| ESeaportFulfillOrder (order : ProtocolData) (account : Address)
| EBuildTransaction (a : Action)
| EGetGasPrice
| ESendTransaction (tx : Transaction)
| ETxWait (h : TxHandle)
| EBalanceOf (owner : Address)
| EDeposit (value : Z)
| EAllowance (owner spender : Address)
| EApprove (spender : Address) (amount : Z)
| EContractTxWait (h : TxHandle)
| ESeaportCreateOrder (terms : OrderTerms) (account : Address)
| EExecuteAllActions (h : OrderHandle)
| EDateNow
| EDelay (ms : Z)
| EConsoleLog (line : string)
| EConsoleError (label msg : string).

(** Pure functions of ethers and of the JavaScript runtime. *)
Record Lib : Type := {
  (** [parseFloat(ethers.utils.formatEther(wei))] *)
  etherToNumber : Z -> float;
  (** [Number.prototype.toString] *)
  numberToString : float -> string;
  (** [ethers.utils.parseEther], which rejects malformed decimals *)
  parseEther : string -> Res Z;
  (** [ethers.utils.parseUnits(_, 'gwei')] *)
  parseGwei : string -> Res Z;
  (** [ethers.utils.formatEther] *)
  formatEther : Z -> string;
  (** [ethers.utils.formatUnits(_, 'gwei')] *)
  formatGwei : Z -> string;
  (** [new ethers.Wallet(privateKey, provider).address], which rejects
      malformed keys *)
  computeAddress : string -> Res Address
}.

(** The collaborators, as transitions of an abstract world [W]. *)
Record Ext (W : Type) : Type := {
  axios_get_events : Request -> W -> Res EventsResponse * W;
  axios_get_listings : Request -> W -> Res ListingsResponse * W;
  axios_get_asset_contract : Request -> W -> Res ContractResponse * W;
  axios_post_offer : Request -> SignedOrder -> W -> Res PostResponse * W;
  seaport_validate : list ProtocolData -> Address -> W -> Res bool * W;
  seaport_fulfillOrder : ProtocolData -> Address -> W -> Res (list Action) * W;
  buildTransaction : Action -> W -> Res Transaction * W;
  seaport_createOrder : OrderTerms -> Address -> W -> Res OrderHandle * W;
  executeAllActions : OrderHandle -> W -> Res SignedOrder * W;
  provider_getGasPrice : W -> Res Z * W;
  wallet_sendTransaction : Transaction -> W -> Res TxResponse * W;
  txResponse_wait : TxHandle -> W -> Res Receipt * W;
  weth_balanceOf : Address -> W -> Res Z * W;
  weth_deposit : Z -> W -> Res TxHandle * W;
  weth_allowance : Address -> Address -> W -> Res Z * W;
  weth_approve : Address -> Z -> W -> Res TxHandle * W;
  contractTx_wait : TxHandle -> W -> Res unit * W;
  Date_now : W -> Z * W;
  setTimeout_elapsed : Z -> W -> W
}.
Arguments axios_get_events {W}.
Arguments axios_get_listings {W}.
Arguments axios_get_asset_contract {W}.
Arguments axios_post_offer {W}.
Arguments seaport_validate {W}.
Arguments seaport_fulfillOrder {W}.
Arguments buildTransaction {W}.
Arguments seaport_createOrder {W}.
Arguments executeAllActions {W}.
Arguments provider_getGasPrice {W}.
Arguments wallet_sendTransaction {W}.
Arguments txResponse_wait {W}.
Arguments weth_balanceOf {W}.
Arguments weth_deposit {W}.
Arguments weth_allowance {W}.
Arguments weth_approve {W}.
Arguments contractTx_wait {W}.
Arguments Date_now {W}.
Arguments setTimeout_elapsed {W}.

(** ** The monad of [async] methods: world, trace and exceptions *)

Record St (W : Type) : Type := mkSt { world : W; trace : list Event }.
Arguments mkSt {W}.
Arguments world {W}.
Arguments trace {W}.

Definition M (W A : Type) : Type := St W -> Res A * St W.

Definition ret {W A : Type} (a : A) : M W A := fun s => (Ok a, s).

Definition throw {W A : Type} (e : JsError) : M W A := fun s => (Throw e, s).

Definition bind {W A B : Type} (m : M W A) (k : A -> M W B) : M W B :=
  fun s =>
    match m s with
    | (Ok a, s') => k a s'
    | (Throw e, s') => (Throw e, s')
    end.

(** [try { m } catch (error) { h error }] *)
Definition try_catch {W A : Type} (m : M W A) (h : JsError -> M W A) : M W A :=
  fun s =>
    match m s with
    | (Ok a, s') => (Ok a, s')
    | (Throw e, s') => h e s'
    end.

Definition emit {W : Type} (ev : Event) : M W unit :=
  fun s => (Ok tt, mkSt (world s) (trace s ++ [ev])).

(** A call to a collaborator: the call is recorded, then the world answers. *)
Definition call {W A : Type} (ev : Event) (f : W -> Res A * W) : M W A :=
  fun s =>
    let (r, w') := f (world s) in
    (r, mkSt w' (trace s ++ [ev])).

(** A pure library function that may throw. *)
Definition lift {W A : Type} (r : Res A) : M W A := fun s => (r, s).

Declare Scope js_scope.
Delimit Scope js_scope with js.
Notation "x <- m ;; k" := (bind m (fun x => k))
  (at level 100, m at next level, right associativity) : js_scope.
Notation "m ;;; k" := (bind m (fun _ => k))
  (at level 100, right associativity) : js_scope.

(** [for (const x of xs) { body x }] *)
Fixpoint for_of {W A : Type} (xs : list A) (body : A -> M W unit) : M W unit :=
  match xs with
  | [] => ret tt
  | x :: rest => bind (body x) (fun _ => for_of rest body)
  end.

(** [console.log] and [console.error].  The pictograph that opens some of
    the lines of the program is left out of the recorded text. *)
Definition console_log {W : Type} (line : string) : M W unit :=
  emit (EConsoleLog line).

Definition console_error {W : Type} (label msg : string) : M W unit :=
  emit (EConsoleError label msg).

(** ** OpenSeaBot.js *)

Definition res_bind {A B : Type} (r : Res A) (k : A -> Res B) : Res B :=
  match r with
  | Ok a => k a
  | Throw e => Throw e
  end.

(** [!s] for a constructor argument, which is a string or [undefined]. *)
Definition falsy_arg (s : option string) : bool :=
  match s with
  | None => true
  | Some v => String.eqb v ""
  end.

(** The royalty info that [makeOffer] falls back on when the lookup
    yields nothing. *)
Definition fallback_royalty : RoyaltyInfo := {|
  recipient := JString "0x0000a26b00c1F0DF003000390027140000fAa719";
  basisPoints := Some 1000
|}.

(** [a.mul(b)] of ethers: [b] is converted with [BigNumber.from], which
    throws on a value that is not an integer; [None] stands for such a
    value (a missing field, a fraction). *)
Definition BigNumber_mul (a : Z) (b : option Z) : Res Z :=
  match b with
  | Some n => Ok (a * n)
  | None => Throw (Error "invalid BigNumber value")
  end.

(** [a.div(b)] of ethers (bn.js): the quotient rounded towards zero. *)
Definition BigNumber_div (a b : Z) : Res Z :=
  if b =? 0 then Throw (Error "division-by-zero") else Ok (Z.quot a b).

(** What [monitorCollection] decides for one listing: which executor runs,
    and with which arguments. *)
Inductive Decision : Type :=
| Buy (contract : Address) (tokenId : TokenId) (price : float)
| Offer (contract : Address) (tokenId : TokenId) (offerAmount : float).

(** Lines 54-62 of [monitorCollection], without the executor calls. *)
Definition classify (cfg : Config) (contract : Address) (tokenId : TokenId)
    (price : float) : Decision :=
  if (price <? buyThreshold cfg)%float
  then Buy contract tokenId price
  else Offer contract tokenId (price * offerPercentage cfg)%float.

Section Methods.
Context {W : Type}.
Variable lib : Lib.
Variable ext : Ext W.

Local Open Scope js_scope.

(** [constructor(privateKey, infuraUrl, openseaApiKey, config = {})] *)
Definition constructor (privateKey infuraUrl openseaApiKey : option string)
    (cfg : ConfigOverrides) : Res Bot :=
  if falsy_arg privateKey || falsy_arg infuraUrl
  then Throw (Error "Missing required constructor parameters")
  else
    let pk := match privateKey with Some v => v | None => "" end in
    let rpc := match infuraUrl with Some v => v | None => "" end in
    let provider := {| connection_url := rpc |} in
    res_bind (computeAddress lib pk) (fun addr =>
    let wallet := {| wallet_address := addr; wallet_provider := provider |} in
    let seaport := {| seaport_signer := wallet;
                      seaport_contractAddress := SEAPORT_ADDRESS |} in
    let config := spread DEFAULT_CONFIG cfg in
    res_bind (parseGwei lib (numberToString lib (maxGasPrice config)))
      (fun maxGasPriceWei =>
    Ok {| provider := provider; wallet := wallet; seaport := seaport;
          config := config; maxGasPriceWei := maxGasPriceWei;
          (* no assignment to [this.openseaApiKey] *)
          openseaApiKey := JUndefined |})).

(** [delay(ms)]: a timer promise; it never rejects. *)
Definition delay (ms : Z) : M W unit :=
  fun s => (Ok tt, mkSt (setTimeout_elapsed ext ms (world s)) (trace s ++ [EDelay ms])).

Definition events_request (this : Bot) (collectionSlug : string) (limit : Z) : Request := {|
  url := OPENSEA_API_URL ++ "/events";
  params := [("collection_slug", JString collectionSlug);
             ("event_type", JString "created");
             ("limit", JNumber limit)];
  x_api_key := openseaApiKey this
|}.

(** [fetchNewListings(collectionSlug, limit = 10)] *)
Definition fetchNewListings (this : Bot) (collectionSlug : string) (limit : Z)
    : M W (list Listing) :=
  try_catch
    (response <- call (EAxiosGet (events_request this collectionSlug limit))
                      (axios_get_events ext (events_request this collectionSlug limit)) ;;
     match events_data response with
     | None => throw (Error "Cannot read properties of undefined (reading 'asset_events')")
     | Some d => ret (match asset_events d with Some l => l | None => [] end)
     end)
    (fun error =>
       console_error "Failed to fetch listings:" (message error) ;;;
       ret []).

Definition listings_request (this : Bot) (assetContract : Address) (tokenId : TokenId)
    : Request := {|
  url := OPENSEA_API_URL ++ "/asset/" ++ assetContract ++ "/" ++ tokenId ++ "/listings";
  params := [];
  x_api_key := openseaApiKey this
|}.

(** [fetchListingOrder(assetContract, tokenId)].  The result is the order,
    or nothing: [undefined] when the reply has no first order, [null] when
    the request failed; the caller only tests it with [!order]. *)
Definition fetchListingOrder (this : Bot) (assetContract : Address) (tokenId : TokenId)
    : M W (option Order) :=
  try_catch
    (response <- call (EAxiosGet (listings_request this assetContract tokenId))
                      (axios_get_listings ext (listings_request this assetContract tokenId)) ;;
     match listings_data response with
     | None => throw (Error "Cannot read properties of undefined (reading 'orders')")
     | Some d => ret (match orders d with Some l => hd_error l | None => None end)
     end)
    (fun error =>
       console_error "Error fetching order:" (message error) ;;;
       ret None).

(** [receipt.status === 0] *)
Definition status_is_zero (r : Receipt) : bool :=
  match status r with
  | Some n => n =? 0
  | None => false
  end.

(** [buyNow(assetContract, tokenId, priceEth)] *)
Definition buyNow (this : Bot) (assetContract : Address) (tokenId : TokenId)
    (priceEth : float) : M W PurchaseResult :=
  try_catch
    (order <- fetchListingOrder this assetContract tokenId ;;
     match order with
     | None => throw (Error "No valid order found")
     | Some order =>
       (isValid <- call (ESeaportValidate [protocol_data order] (wallet_address (wallet this)))
                        (seaport_validate ext [protocol_data order] (wallet_address (wallet this))) ;;
        if negb isValid then throw (Error "Invalid order") else
        (actions <- call (ESeaportFulfillOrder (protocol_data order) (wallet_address (wallet this)))
                         (seaport_fulfillOrder ext (protocol_data order) (wallet_address (wallet this))) ;;
         match actions with
         | [] => throw (Error "Cannot read properties of undefined (reading 'transactionMethods')")
         | action0 :: _ =>
           (transaction <- call (EBuildTransaction action0) (buildTransaction ext action0) ;;
            currentGasPrice <- call EGetGasPrice (provider_getGasPrice ext) ;;
            if currentGasPrice >? maxGasPriceWei this
            then throw (Error ("Gas price too high (" ++ formatGwei lib currentGasPrice ++ " gwei)"))
            else
              let transaction := {| tx_request := tx_request transaction;
                                    gasPrice := Some currentGasPrice;
                                    gasLimit := Some 300000 |} in
              (txResponse <- call (ESendTransaction transaction)
                                  (wallet_sendTransaction ext transaction) ;;
               receipt <- call (ETxWait (tx_handle txResponse))
                               (txResponse_wait ext (tx_handle txResponse)) ;;
               if status_is_zero receipt then throw (Error "Transaction failed") else
               ret {| txHash := hash txResponse; nftId := tokenId; price := priceEth |}))
         end))
     end)
    (fun error =>
       console_error "BuyNow error:" (message error) ;;;
       throw error).

(** [wrapEthIfNeeded(requiredWei)] *)
Definition wrapEthIfNeeded (this : Bot) (requiredWei : Z) : M W unit :=
  wethBalance <- call (EBalanceOf (wallet_address (wallet this)))
                      (weth_balanceOf ext (wallet_address (wallet this))) ;;
  if wethBalance <? requiredWei then
    let ethToWrap := requiredWei - wethBalance in
    (tx <- call (EDeposit ethToWrap) (weth_deposit ext ethToWrap) ;;
     call (EContractTxWait tx) (contractTx_wait ext tx) ;;;
     console_log ("Wrapped " ++ formatEther lib ethToWrap ++ " ETH to WETH"))
  else ret tt.

(** [approveWeth(amountWei)] *)
Definition approveWeth (this : Bot) (amountWei : Z) : M W unit :=
  currentAllowance <- call (EAllowance (wallet_address (wallet this)) SEAPORT_ADDRESS)
                           (weth_allowance ext (wallet_address (wallet this)) SEAPORT_ADDRESS) ;;
  if currentAllowance <? amountWei then
    (tx <- call (EApprove SEAPORT_ADDRESS amountWei) (weth_approve ext SEAPORT_ADDRESS amountWei) ;;
     call (EContractTxWait tx) (contractTx_wait ext tx) ;;;
     console_log ("Approved " ++ formatEther lib amountWei ++ " WETH for Seaport"))
  else ret tt.

Definition asset_contract_request (this : Bot) (contractAddress : Address) : Request := {|
  url := OPENSEA_API_URL ++ "/asset_contract/" ++ contractAddress;
  params := [];
  x_api_key := openseaApiKey this
|}.

(** [getRoyaltyInfo(contractAddress)]; [None] is the [null] of the
    [catch] branch. *)
Definition getRoyaltyInfo (this : Bot) (contractAddress : Address)
    : M W (option RoyaltyInfo) :=
  try_catch
    (response <- call (EAxiosGet (asset_contract_request this contractAddress))
                      (axios_get_asset_contract ext (asset_contract_request this contractAddress)) ;;
     match contract_data response with
     | None => throw (Error "Cannot read properties of undefined (reading 'payout_address')")
     | Some d => ret (Some {| recipient := payout_address d;
                              basisPoints := dev_seller_fee_basis_points d |})
     end)
    (fun _ => ret None).

Definition offers_request (this : Bot) : Request := {|
  url := OPENSEA_API_URL ++ "/v2/orders/ethereum/seaport/offers";
  params := [];
  x_api_key := openseaApiKey this
|}.

(** [postOfferToOpenSea(order)] *)
Definition postOfferToOpenSea (this : Bot) (order : SignedOrder) : M W jsval :=
  response <- call (EAxiosPost (offers_request this) order)
                   (axios_post_offer ext (offers_request this) order) ;;
  match post_data response with
  | None => throw (Error "Cannot read properties of undefined (reading 'order_hash')")
  | Some d => ret (order_hash d)
  end.

(** The object literal passed to [seaport.createOrder]. *)
Definition order_terms (this : Bot) (assetContract : Address) (tokenId : TokenId)
    (offerAmountWei royaltyAmount : Z) (royaltyRecipient : jsval) (endTime : Z)
    : OrderTerms := {|
  offer := [ {| oi_itemType := ERC20; oi_token := WETH_ADDRESS;
                oi_amount := offerAmountWei |} ];
  consideration :=
    [ {| ci_itemType := ERC721; ci_token := assetContract;
         ci_identifier := Some tokenId; ci_amount := None;
         ci_recipient := JString (wallet_address (wallet this)) |};
      {| ci_itemType := ERC20; ci_token := WETH_ADDRESS;
         ci_identifier := None; ci_amount := Some royaltyAmount;
         ci_recipient := royaltyRecipient |} ];
  endTime := endTime
|}.

(** [offerAmountWei.mul(royaltyInfo.basisPoints).div(10000)] *)
Definition royalty_amount (offerAmountWei : Z) (bp : option Z) : Res Z :=
  res_bind (BigNumber_mul offerAmountWei bp) (fun product =>
  BigNumber_div product 10000).

(** [makeOffer(assetContract, tokenId, offerAmountEth, expirationDays = 7)] *)
Definition makeOffer (this : Bot) (assetContract : Address) (tokenId : TokenId)
    (offerAmountEth : float) (expirationDays : Z) : M W OfferResult :=
  try_catch
    (offerAmountWei <- lift (parseEther lib (numberToString lib offerAmountEth)) ;;
     wrapEthIfNeeded this offerAmountWei ;;;
     approveWeth this offerAmountWei ;;;
     looked_up <- getRoyaltyInfo this assetContract ;;
     let royaltyInfo := match looked_up with
                        | Some info => info
                        | None => fallback_royalty
                        end in
     now <- call EDateNow (fun w => let (t, w') := Date_now ext w in (Ok t, w')) ;;
     let endTime := now / 1000 + expirationDays * 86400 in
     royaltyAmount <- lift (royalty_amount offerAmountWei (basisPoints royaltyInfo)) ;;
     handle <- call (ESeaportCreateOrder
                       (order_terms this assetContract tokenId offerAmountWei
                          royaltyAmount (recipient royaltyInfo) endTime)
                       (wallet_address (wallet this)))
                    (seaport_createOrder ext
                       (order_terms this assetContract tokenId offerAmountWei
                          royaltyAmount (recipient royaltyInfo) endTime)
                       (wallet_address (wallet this))) ;;
     order <- call (EExecuteAllActions handle) (executeAllActions ext handle) ;;
     orderHash <- postOfferToOpenSea this order ;;
     ret {| orderHash := orderHash; offerAmount := offerAmountEth;
            expiration := endTime * 1000 |})
    (fun error =>
       console_error "MakeOffer error:" (message error) ;;;
       throw error).

(** The executor call of one decision, with the log line that follows a
    result (lines 55-58 and 62-65). *)
Definition dispatch (this : Bot) (d : Decision) : M W unit :=
  match d with
  | Buy contract tokenId price =>
    result <- buyNow this contract tokenId price ;;
    if truthy (txHash result)
    then console_log ("Bought NFT! TX: https://etherscan.io/tx/"
                      ++ template (txHash result))
    else ret tt
  | Offer contract tokenId offerPrice =>
    result <- makeOffer this contract tokenId offerPrice 7 ;;
    if truthy (orderHash result)
    then console_log ("Offer made! View: https://opensea.io/assets/ethereum/"
                      ++ contract ++ "/" ++ tokenId)
    else ret tt
  end.

(** The body of the [for ... of] loop of [monitorCollection]. *)
Definition process_listing (this : Bot) (listing : Listing) : M W unit :=
  match asset listing with
  | None => ret tt
  | Some a =>
    let tokenId := token_id a in
    let contract := address (asset_contract a) in
    let price := etherToNumber lib (ending_price listing) in
    console_log ("Found NFT #" ++ tokenId ++ " for " ++ numberToString lib price ++ " ETH") ;;;
    dispatch this (classify (config this) contract tokenId price)
  end.

(** One turn of the [while (true)] loop of [monitorCollection]. *)
Definition monitor_cycle (this : Bot) (collectionSlug : string) : M W unit :=
  try_catch
    (listings <- fetchNewListings this collectionSlug 10 ;;
     for_of listings (process_listing this) ;;;
     delay (pollingInterval (config this)))
    (fun error =>
       console_error "Monitoring error:" (message error) ;;;
       delay (errorRetryDelay (config this))).

(** The first [n] turns of the loop.  The loop has no exit, so [Ok tt]
    after [n] turns means: still running. *)
Fixpoint monitor_loop (this : Bot) (collectionSlug : string) (n : nat) : M W unit :=
  match n with
  | O => ret tt
  | S k => monitor_cycle this collectionSlug ;;; monitor_loop this collectionSlug k
  end.

(** [monitorCollection(collectionSlug)], observed for [n] turns. *)
Definition monitorCollection (this : Bot) (collectionSlug : string) (n : nat) : M W unit :=
  console_log ("Monitoring new listings for " ++ collectionSlug ++ "...") ;;;
  monitor_loop this collectionSlug n.

(** The rest of [makeOffer] once the royalty amount is known: create,
    sign, post, return. *)
Definition offer_tail (this : Bot) (assetContract : Address) (tokenId : TokenId)
    (offerAmountEth : float) (terms : OrderTerms) : M W OfferResult :=
  bind (call (ESeaportCreateOrder terms (wallet_address (wallet this)))
             (seaport_createOrder ext terms (wallet_address (wallet this))))
    (fun handle =>
  bind (call (EExecuteAllActions handle) (executeAllActions ext handle))
    (fun order =>
  bind (postOfferToOpenSea this order)
    (fun orderHash =>
  ret {| orderHash := orderHash; offerAmount := offerAmountEth;
         expiration := endTime terms * 1000 |}))).

(** The [catch] block of [makeOffer]. *)
Definition offer_catch (error : JsError) : M W OfferResult :=
  bind (console_error "MakeOffer error:" (message error)) (fun _ => throw error).

(** The [catch] block of [monitorCollection]. *)
Definition monitor_catch (this : Bot) (error : JsError) : M W unit :=
  bind (console_error "Monitoring error:" (message error))
       (fun _ => delay (errorRetryDelay (config this))).

End Methods.

(** ** main.js *)

(** The three variables that [main] reads from [process.env] after
    [dotenv.config()]; an unset variable is [undefined]. *)
Record Env : Type := {
  PRIVATE_KEY : option string;
  INFURA_URL : option string;
  OPENSEA_API_KEY : option string
}.

(** The [config] argument that [main] passes to the constructor. *)
Definition main_config : ConfigOverrides := {|
  o_buyThreshold := Some 0.1%float;
  o_offerPercentage := Some 0.8%float;
  o_maxGasPrice := None;
  o_pollingInterval := None;
  o_errorRetryDelay := None
|}.

Section Main.
Context {W : Type}.
Variable lib : Lib.
Variable ext : Ext W.

(** [main()], with the loop observed for [n] turns.  The result is the
    status passed to [process.exit], or nothing while the process is still
    monitoring.  [console.error('Fatal error:', error)] prints the error
    object; the recorded text keeps its message. *)
Definition main (env : Env) (n : nat) : M W (option Z) :=
  try_catch
    (bind (lift (constructor lib (PRIVATE_KEY env) (INFURA_URL env)
                   (OPENSEA_API_KEY env) main_config))
       (fun bot =>
     bind (monitorCollection lib ext bot "cool-cats-nft" n)
       (fun _ => ret None)))
    (fun error =>
       bind (console_error "Fatal error:" (message error))
            (fun _ => ret (Some 1))).

End Main.

(** ** Observations on a run *)

(** What a computation started in [s] added to the trace. *)
Definition new_events {W A : Type} (s : St W) (out : Res A * St W) : list Event :=
  skipn (List.length (trace s)) (trace (snd out)).

Definition deposits (evs : list Event) : list Z :=
  flat_map (fun ev => match ev with EDeposit v => [v] | _ => [] end) evs.

Definition approvals (evs : list Event) : list (Address * Z) :=
  flat_map (fun ev => match ev with EApprove sp a => [(sp, a)] | _ => [] end) evs.

Definition delays (evs : list Event) : list Z :=
  flat_map (fun ev => match ev with EDelay ms => [ms] | _ => [] end) evs.

(** The requests sent to the marketplace, in order. *)
Definition requests (evs : list Event) : list Request :=
  flat_map (fun ev => match ev with
                      | EAxiosGet r => [r]
                      | EAxiosPost r _ => [r]
                      | _ => []
                      end) evs.

(** The steps of a purchase after the order lookup: validation,
    fulfilment, and the submission of the transaction. *)
Definition is_purchase_step (ev : Event) : bool :=
  match ev with
  | ESeaportValidate _ _ | ESeaportFulfillOrder _ _ | EBuildTransaction _
  | EGetGasPrice | ESendTransaction _ | ETxWait _ => true
  | _ => false
  end.

Definition submitted (evs : list Event) : list Transaction :=
  flat_map (fun ev => match ev with ESendTransaction tx => [tx] | _ => [] end) evs.

Definition created_orders (evs : list Event) : list OrderTerms :=
  flat_map (fun ev => match ev with ESeaportCreateOrder t _ => [t] | _ => [] end) evs.

(** The reply of the listings endpoint carries no order: the request
    failed, or the body has no first element under [orders]. *)
Definition no_order (r : Res ListingsResponse) : bool :=
  match r with
  | Throw _ => true
  | Ok resp =>
    match listings_data resp with
    | None => true
    | Some d => match orders d with
                | None | Some [] => true
                | Some (_ :: _) => false
                end
    end
  end.

(** The royalty lookup failed: the request was rejected, or the reply has
    no body to read the two fields from. *)
Definition lookup_failed (r : Res ContractResponse) : bool :=
  match r with
  | Throw _ => true
  | Ok resp => match contract_data resp with None => true | Some _ => false end
  end.

(** The listing fetch failed, in the same two ways. *)
Definition fetch_failed (r : Res EventsResponse) : bool :=
  match r with
  | Throw _ => true
  | Ok resp => match events_data resp with None => true | Some _ => false end
  end.

Definition failure_message {A : Type} (r : Res A) (when_no_body : string) : string :=
  match r with
  | Throw e => message e
  | Ok _ => when_no_body
  end.

(** A computation only ever appends to the trace, and all it appends
    satisfies [P]. *)
Definition appends {W A : Type} (P : Event -> Prop) (m : M W A) : Prop :=
  forall s, exists evs, trace (snd (m s)) = (trace s ++ evs)%list /\ Forall P evs.

(** A marketplace request carries the value of [this.openseaApiKey]. *)
Definition keyed (this : Bot) (ev : Event) : Prop :=
  match ev with
  | EAxiosGet r => x_api_key r = openseaApiKey this
  | EAxiosPost r _ => x_api_key r = openseaApiKey this
  | _ => True
  end.

(** Anything but a call to [seaport.createOrder]. *)
Definition not_create (ev : Event) : Prop :=
  match ev with
  | ESeaportCreateOrder _ _ => False
  | _ => True
  end.

(** The lines written with [console.error], as label and message. *)
Definition console_errors (evs : list Event) : list (string * string) :=
  flat_map (fun ev => match ev with EConsoleError l m => [(l, m)] | _ => [] end) evs.

(** The signed orders posted to the marketplace. *)
Definition posted (evs : list Event) : list SignedOrder :=
  flat_map (fun ev => match ev with EAxiosPost _ o => [o] | _ => [] end) evs.

(** [listing.asset] is truthy. *)
Definition has_asset (l : Listing) : bool :=
  match asset l with Some _ => true | None => false end.

(** Anything but a timer. *)
Definition not_delay (ev : Event) : Prop :=
  match ev with
  | EDelay _ => False
  | _ => True
  end.

(** ** A concrete world to run the bot in

    A wallet with a WETH balance and an allowance, a clock, and a queue of
    replies of the [/events] endpoint.  The replies of the other endpoints
    and the gas price are fixed per world. *)

Record Sim : Type := {
  sim_clock : Z;
  sim_weth : Z;
  sim_allowance : Z;
  sim_events : list (Res EventsResponse)
}.

Definition sim_ext (orders_at : string -> Res ListingsResponse)
    (royalty : Res ContractResponse) (gas : Z) : Ext Sim := {|
  axios_get_events := fun _ w =>
    match sim_events w with
    | [] => (Ok {| events_data := Some {| asset_events := Some [] |} |}, w)
    | r :: rest =>
      (r, {| sim_clock := sim_clock w; sim_weth := sim_weth w;
             sim_allowance := sim_allowance w; sim_events := rest |})
    end;
  axios_get_listings := fun r w => (orders_at (url r), w);
  axios_get_asset_contract := fun _ w => (royalty, w);
  axios_post_offer := fun _ _ w =>
    (Ok {| post_data := Some {| order_hash := JString "0xorder" |} |}, w);
  seaport_validate := fun _ _ w => (Ok true, w);
  seaport_fulfillOrder := fun pd _ w => (Ok ["fulfil " ++ pd], w);
  buildTransaction := fun a w =>
    (Ok {| tx_request := a; gasPrice := None; gasLimit := None |}, w);
  seaport_createOrder := fun _ _ w => (Ok "create", w);
  executeAllActions := fun _ w => (Ok "signed order", w);
  provider_getGasPrice := fun w => (Ok gas, w);
  wallet_sendTransaction := fun _ w =>
    (Ok {| hash := JString "0xhash"; tx_handle := "purchase" |}, w);
  txResponse_wait := fun _ w => (Ok {| status := Some 1 |}, w);
  weth_balanceOf := fun _ w => (Ok (sim_weth w), w);
  weth_deposit := fun v w =>
    (Ok "deposit", {| sim_clock := sim_clock w; sim_weth := sim_weth w + v;
                      sim_allowance := sim_allowance w; sim_events := sim_events w |});
  weth_allowance := fun _ _ w => (Ok (sim_allowance w), w);
  weth_approve := fun _ a w =>
    (Ok "approve", {| sim_clock := sim_clock w; sim_weth := sim_weth w;
                      sim_allowance := a; sim_events := sim_events w |});
  contractTx_wait := fun _ w => (Ok tt, w);
  Date_now := fun w => (sim_clock w, w);
  setTimeout_elapsed := fun ms w =>
    {| sim_clock := sim_clock w + ms; sim_weth := sim_weth w;
       sim_allowance := sim_allowance w; sim_events := sim_events w |}
|}.

(** The library functions on the handful of values the scenarios use. *)
Definition sim_lib : Lib := {|
  etherToNumber := fun wei =>
    if wei =? 50000000000000000 then 0.05%float
    else if wei =? 100000000000000000 then 0.1%float
    else if wei =? 200000000000000000 then 0.2%float
    else if wei =? 1000000000000000000 then 1%float
    else 0%float;
  numberToString := fun x =>
    if (x =? 0.05)%float then "0.05"
    else if (x =? 0.2)%float then "0.2"
    else if (x =? 1)%float then "1"
    else if (x =? 50)%float then "50"
    else "0";
  parseEther := fun s =>
    if String.eqb s "0.05" then Ok 50000000000000000
    else if String.eqb s "0.2" then Ok 200000000000000000
    else if String.eqb s "1" then Ok 1000000000000000000
    else if String.eqb s "0" then Ok 0
    else Throw (Error "invalid decimal value");
  parseGwei := fun s =>
    if String.eqb s "50" then Ok 50000000000
    else Throw (Error "invalid decimal value");
  formatEther := fun wei =>
    if wei =? 1000000000000000000 then "1.0"
    else if wei =? 400000000000000000 then "0.4"
    else "0.0";
  formatGwei := fun g =>
    if g =? 60000000000 then "60.0"
    else if g =? 20000000000 then "20.0"
    else "0.0";
  computeAddress := fun pk =>
    if String.eqb pk "0xkey" then Ok "0xWallet"
    else Throw (Error "invalid private key")
|}.

Definition sim_world (weth allowance : Z) (events : list (Res EventsResponse)) : St Sim :=
  mkSt {| sim_clock := 1700000000123; sim_weth := weth; sim_allowance := allowance;
          sim_events := events |} [].

(** The bot that [main.js] constructs, with no API key in the environment. *)
Definition sim_bot : Bot := {|
  provider := {| connection_url := "https://rpc" |};
  wallet := {| wallet_address := "0xWallet";
               wallet_provider := {| connection_url := "https://rpc" |} |};
  seaport := {| seaport_signer := {| wallet_address := "0xWallet";
                                     wallet_provider := {| connection_url := "https://rpc" |} |};
                seaport_contractAddress := SEAPORT_ADDRESS |};
  config := DEFAULT_CONFIG;
  maxGasPriceWei := 50000000000;
  openseaApiKey := JUndefined
|}.

Definition sim_listing (token : TokenId) (wei : Z) : Listing :=
  {| asset := Some {| token_id := token; asset_contract := {| address := "0xNFT" |} |};
     ending_price := wei |}.

Definition one_order : Res ListingsResponse :=
  Ok {| listings_data := Some {| orders := Some [ {| protocol_data := "order" |} ] |} |}.

Definition empty_orders : Res ListingsResponse :=
  Ok {| listings_data := Some {| orders := Some [] |} |}.

(** Every token has a listed order, except token 2. *)
Definition orders_except_2 (u : string) : Res ListingsResponse :=
  if String.eqb u (OPENSEA_API_URL ++ "/asset/0xNFT/2/listings")
  then empty_orders else one_order.

Definition royalty_down : Res ContractResponse :=
  Throw (Error "Request failed with status code 500").

Definition royalty_250 : Res ContractResponse :=
  Ok {| contract_data := Some {| payout_address := JString "0xCreator";
                                 dev_seller_fee_basis_points := Some 250 |} |}.

(** A batch of three listings at 0.05 ETH, below the default threshold. *)
Definition three_listings : Res EventsResponse :=
  Ok {| events_data := Some {| asset_events :=
          Some [ sim_listing "1" 50000000000000000;
                 sim_listing "2" 50000000000000000;
                 sim_listing "3" 50000000000000000 ] |} |}.

Definition network_error : Res EventsResponse := Throw (Error "Network Error").

(** The library on one more number: [(1e-7).toString()] is in exponent
    form, which [parseEther] rejects. *)
Definition sim_lib_tiny : Lib := {|
  etherToNumber := etherToNumber sim_lib;
  numberToString := fun x =>
    if (x =? 1e-7)%float then "1e-7" else numberToString sim_lib x;
  parseEther := parseEther sim_lib;
  parseGwei := parseGwei sim_lib;
  formatEther := formatEther sim_lib;
  formatGwei := formatGwei sim_lib;
  computeAddress := computeAddress sim_lib
|}.

(** A world in which Seaport answers the validation with [v] and the WETH
    contract answers a deposit with [dep]; everything else as in [base]. *)
Definition sim_ext_with (v : Res bool) (dep : Z -> Sim -> Res TxHandle * Sim)
    (base : Ext Sim) : Ext Sim := {|
  axios_get_events := axios_get_events base;
  axios_get_listings := axios_get_listings base;
  axios_get_asset_contract := axios_get_asset_contract base;
  axios_post_offer := axios_post_offer base;
  seaport_validate := fun _ _ w => (v, w);
  seaport_fulfillOrder := seaport_fulfillOrder base;
  buildTransaction := buildTransaction base;
  seaport_createOrder := seaport_createOrder base;
  executeAllActions := executeAllActions base;
  provider_getGasPrice := provider_getGasPrice base;
  wallet_sendTransaction := wallet_sendTransaction base;
  txResponse_wait := txResponse_wait base;
  weth_balanceOf := weth_balanceOf base;
  weth_deposit := dep;
  weth_allowance := weth_allowance base;
  weth_approve := weth_approve base;
  contractTx_wait := contractTx_wait base;
  Date_now := Date_now base;
  setTimeout_elapsed := setTimeout_elapsed base
|}.

(** A wallet without the ether to wrap. *)
Definition deposit_reverts (v : Z) (w : Sim) : Res TxHandle * Sim :=
  (Throw (Error "insufficient funds for intrinsic transaction cost"), w).

(** A royalty reply without a payout address and with a rate of zero. *)
Definition royalty_blank : Res ContractResponse :=
  Ok {| contract_data := Some {| payout_address := JUndefined;
                                 dev_seller_fee_basis_points := Some 0 |} |}.

Definition env_without_key : Env :=
  {| PRIVATE_KEY := None; INFURA_URL := Some "https://rpc"; OPENSEA_API_KEY := Some "secret" |}.

(** * Properties *)

Open Scope list_scope.

(** ** Comparison of JavaScript numbers *)

Lemma SFcompare_swap (x y : spec_float) (c : comparison) :
  SFcompare x y = Some c -> SFcompare y x = Some (CompOpp c).
Proof.
  destruct x as [sx|sx| |sx mx ex], y as [sy|sy| |sy my ey]; simpl;
    try discriminate;
    try (destruct sx; intros [= <-]; reflexivity);
    try (destruct sy; intros [= <-]; reflexivity);
    try (intros [= <-]; reflexivity).
  - destruct sx, sy; intros [= <-]; reflexivity.
  - destruct sx, sy; intros [= <-]; try reflexivity; f_equal;
      rewrite (Z.compare_antisym ex ey);
      destruct (ex ?= ey) eqn:E; simpl; try reflexivity;
      rewrite (Pos.compare_cont_antisym); simpl; try reflexivity;
      rewrite ?CompOpp_involutive; reflexivity.
Qed.

(** [t <= p] excludes [p < t], also at the infinities and at [NaN]. *)
Lemma leb_ltb_false (t p : float) :
  (t <=? p)%float = true -> (p <? t)%float = false.
Proof.
  rewrite leb_spec, ltb_spec. unfold SFleb, SFltb.
  destruct (SFcompare (Prim2SF t) (Prim2SF p)) as [c|] eqn:E; try discriminate.
  rewrite (SFcompare_swap _ _ _ E). destruct c; simpl; congruence.
Qed.

Lemma eqb_ltb_false (p t : float) :
  (p =? t)%float = true -> (p <? t)%float = false.
Proof.
  rewrite eqb_spec, ltb_spec. unfold SFeqb, SFltb.
  destruct (SFcompare (Prim2SF p) (Prim2SF t)) as [[]|]; congruence.
Qed.

(** ** Traces *)

Lemma skipn_length_app {A : Type} (l r : list A) :
  skipn (List.length l) (l ++ r)%list = r.
Proof. induction l as [|x l IH]; simpl; auto. Qed.

Lemma new_events_app {W A : Type} (s : St W) (r : Res A) (w : W) (evs : list Event) :
  new_events s (r, mkSt w (trace s ++ evs)%list) = evs.
Proof. unfold new_events; simpl. apply skipn_length_app. Qed.

Lemma new_events_same {W A : Type} (s : St W) (r : Res A) (w : W) :
  new_events s (r, mkSt w (trace s)) = [].
Proof. unfold new_events; simpl. apply skipn_all. Qed.

(** Normalises a trace built by successive [_ ++ [ev]] and reads off what
    was added. *)
Ltac read_trace :=
  repeat rewrite <- app_assoc; simpl;
  first [ rewrite new_events_app | rewrite new_events_same | idtac ].

Section Appends.
Context {W : Type} (P : Event -> Prop).

Lemma appends_ret {A : Type} (a : A) : appends P (@ret W A a).
Proof. intros s; exists []; simpl; rewrite app_nil_r; auto. Qed.

Lemma appends_throw {A : Type} (e : JsError) : appends P (@throw W A e).
Proof. intros s; exists []; simpl; rewrite app_nil_r; auto. Qed.

Lemma appends_lift {A : Type} (r : Res A) : appends P (@lift W A r).
Proof. intros s; exists []; simpl; rewrite app_nil_r; auto. Qed.

Lemma appends_emit (ev : Event) : P ev -> appends P (@emit W ev).
Proof. intros H s; exists [ev]; simpl; auto. Qed.

Lemma appends_call {A : Type} (ev : Event) (f : W -> Res A * W) :
  P ev -> appends P (call ev f).
Proof.
  intros H s; exists [ev]. unfold call.
  destruct (f (world s)); simpl; auto.
Qed.

Lemma appends_bind {A B : Type} (m : M W A) (k : A -> M W B) :
  appends P m -> (forall a, appends P (k a)) -> appends P (bind m k).
Proof.
  intros Hm Hk s. unfold bind.
  destruct (Hm s) as (e1 & E1 & F1).
  destruct (m s) as [[a|e] s1]; simpl in *.
  - destruct (Hk a s1) as (e2 & E2 & F2).
    exists (e1 ++ e2). rewrite E2, E1, app_assoc. split; auto.
    apply Forall_app; auto.
  - exists e1; auto.
Qed.

Lemma appends_try_catch {A : Type} (m : M W A) (h : JsError -> M W A) :
  appends P m -> (forall e, appends P (h e)) -> appends P (try_catch m h).
Proof.
  intros Hm Hh s. unfold try_catch.
  destruct (Hm s) as (e1 & E1 & F1).
  destruct (m s) as [[a|e] s1]; simpl in *.
  - exists e1; auto.
  - destruct (Hh e s1) as (e2 & E2 & F2).
    exists (e1 ++ e2). rewrite E2, E1, app_assoc. split; auto.
    apply Forall_app; auto.
Qed.

Lemma appends_for_of {A : Type} (xs : list A) (body : A -> M W unit) :
  (forall x, appends P (body x)) -> appends P (for_of xs body).
Proof.
  intros Hb. induction xs as [|x xs IH]; simpl.
  - apply appends_ret.
  - apply appends_bind; auto.
Qed.

End Appends.

(** Walks through a method body, leaving one goal [P ev] per call site. *)
Ltac appends_step :=
  match goal with
  | |- appends _ (bind _ _) => apply appends_bind; [ | intro ]
  | |- appends _ (try_catch _ _) => apply appends_try_catch; [ | intro ]
  | |- appends _ (for_of _ _) => apply appends_for_of; intro
  | |- appends _ (ret _) => apply appends_ret
  | |- appends _ (throw _) => apply appends_throw
  | |- appends _ (lift _) => apply appends_lift
  | |- appends _ (emit _) => apply appends_emit
  | |- appends _ (console_log _) => apply appends_emit
  | |- appends _ (console_error _ _) => apply appends_emit
  | |- appends _ (call _ _) => apply appends_call
  | |- appends _ (match ?x with _ => _ end) => destruct x
  end.

Section RequestKeys.
Context {W : Type}.
Variable lib : Lib.
Variable ext : Ext W.

(** *** The marketplace requests of every method carry [this.openseaApiKey] *)

Lemma delay_appends (P : Event -> Prop) (ms : Z) :
  P (EDelay ms) -> appends P (delay ext ms).
Proof. intros H s; exists [EDelay ms]; simpl; auto. Qed.

Lemma fetchNewListings_keyed this slug limit :
  appends (keyed this) (fetchNewListings ext this slug limit).
Proof. unfold fetchNewListings. repeat appends_step; simpl; auto. Qed.

Lemma fetchListingOrder_keyed this c t :
  appends (keyed this) (fetchListingOrder ext this c t).
Proof. unfold fetchListingOrder. repeat appends_step; simpl; auto. Qed.

Lemma getRoyaltyInfo_keyed this c :
  appends (keyed this) (getRoyaltyInfo ext this c).
Proof. unfold getRoyaltyInfo. repeat appends_step; simpl; auto. Qed.

Lemma postOfferToOpenSea_keyed this o :
  appends (keyed this) (postOfferToOpenSea ext this o).
Proof. unfold postOfferToOpenSea. repeat appends_step; simpl; auto. Qed.

Lemma wrapEthIfNeeded_keyed this r :
  appends (keyed this) (wrapEthIfNeeded lib ext this r).
Proof. unfold wrapEthIfNeeded. repeat appends_step; simpl; auto. Qed.

Lemma approveWeth_keyed this r :
  appends (keyed this) (approveWeth lib ext this r).
Proof. unfold approveWeth. repeat appends_step; simpl; auto. Qed.

Lemma buyNow_keyed this c t p :
  appends (keyed this) (buyNow lib ext this c t p).
Proof.
  unfold buyNow.
  repeat first [ apply fetchListingOrder_keyed | appends_step ]; simpl; auto.
Qed.

Lemma makeOffer_keyed this c t a d :
  appends (keyed this) (makeOffer lib ext this c t a d).
Proof.
  unfold makeOffer.
  repeat first [ apply wrapEthIfNeeded_keyed | apply approveWeth_keyed
               | apply getRoyaltyInfo_keyed | apply postOfferToOpenSea_keyed
               | appends_step ]; simpl; auto.
Qed.

Lemma dispatch_keyed this d :
  appends (keyed this) (dispatch lib ext this d).
Proof.
  unfold dispatch.
  repeat first [ apply buyNow_keyed | apply makeOffer_keyed | appends_step ];
    simpl; auto.
Qed.

Lemma process_listing_keyed this l :
  appends (keyed this) (process_listing lib ext this l).
Proof.
  unfold process_listing.
  repeat first [ apply dispatch_keyed | appends_step ]; simpl; auto.
Qed.

Lemma monitor_cycle_keyed this slug :
  appends (keyed this) (monitor_cycle lib ext this slug).
Proof.
  unfold monitor_cycle.
  repeat first [ apply fetchNewListings_keyed | apply process_listing_keyed
               | apply delay_appends | appends_step ]; simpl; auto.
Qed.

Lemma monitorCollection_keyed this slug n :
  appends (keyed this) (monitorCollection lib ext this slug n).
Proof.
  unfold monitorCollection. apply appends_bind; [ apply appends_emit; simpl; auto | intros _ ].
  induction n as [|n IH]; simpl.
  - apply appends_ret.
  - apply appends_bind; [ apply monitor_cycle_keyed | intros _; exact IH ].
Qed.

Lemma keyed_requests this evs :
  Forall (keyed this) evs ->
  Forall (fun r => x_api_key r = openseaApiKey this) (requests evs).
Proof.
  induction 1 as [|ev evs H _ IH]; simpl; auto.
  destruct ev; simpl in *; auto.
Qed.

Lemma appends_new_events {A : Type} (P : Event -> Prop) (m : M W A) (s : St W) :
  appends P m -> Forall P (new_events s (m s)).
Proof.
  intros H. destruct (H s) as (evs & E & F).
  unfold new_events. rewrite E, skipn_length_app. exact F.
Qed.

End RequestKeys.

Section Claims.
Context {W : Type}.
Variable lib : Lib.
Variable ext : Ext W.

(** Unfolds the monad around the next collaborator call. *)
Ltac run :=
  unfold try_catch, bind, call, lift, throw, ret, console_error, console_log, emit;
  simpl.

(** *** Listing classifier *)

(** C1. For a listing with an asset, the loop body logs the listing and
    runs the executor chosen by [classify], which is a function of the
    listing and the configuration alone: a price below the threshold
    gives Buy with the listing's contract, token and price; a price at
    or above the threshold (equality included) gives Offer with
    [price * offerPercentage]. *)
Theorem classification_of_listing (this : Bot) (listing : Listing) (a : Asset) :
  asset listing = Some a ->
  let p := etherToNumber lib (ending_price listing) in
  let t := buyThreshold (config this) in
  let c := address (asset_contract a) in
  let d := classify (config this) c (token_id a) p in
  process_listing lib ext this listing =
    bind (console_log ("Found NFT #" ++ token_id a ++ " for "
                       ++ numberToString lib p ++ " ETH")%string)
         (fun _ => dispatch lib ext this d)
  /\ ((p <? t)%float = true -> d = Buy c (token_id a) p)
  /\ ((t <=? p)%float = true ->
      d = Offer c (token_id a) (p * offerPercentage (config this))%float)
  /\ ((p =? t)%float = true ->
      d = Offer c (token_id a) (p * offerPercentage (config this))%float).
Proof.
  intros Ha p t c d. repeat split.
  - unfold process_listing. rewrite Ha. reflexivity.
  - intros H. subst d; unfold classify. fold t. rewrite H. reflexivity.
  - intros H. subst d; unfold classify. fold t.
    rewrite (leb_ltb_false _ _ H). reflexivity.
  - intros H. subst d; unfold classify. fold t.
    rewrite (eqb_ltb_false _ _ H). reflexivity.
Qed.

(** *** Purchase executor *)

(** C5. When the listings endpoint yields no order for the token (the
    request fails, or the reply has no first order), [buyNow] throws
    "No valid order found"; all it did is the one GET and its logging:
    no validation, no fulfilment, no transaction. *)
Theorem buyNow_without_order (this : Bot) (c : Address) (t : TokenId) (p : float)
    (s : St W) :
  let reply := fst (axios_get_listings ext (listings_request this c t) (world s)) in
  no_order reply = true ->
  let out := buyNow lib ext this c t p s in
  fst out = Throw (Error "No valid order found")
  /\ submitted (new_events s out) = []
  /\ existsb is_purchase_step (new_events s out) = false
  /\ requests (new_events s out) = [listings_request this c t].
Proof.
  intros reply H out. subst reply out.
  unfold buyNow, fetchListingOrder. run.
  destruct (axios_get_listings ext (listings_request this c t) (world s))
    as [[resp|e] w1]; simpl in *.
  - destruct (listings_data resp) as [d|]; simpl in *.
    + destruct (orders d) as [[|o os]|]; simpl in *; try discriminate;
        read_trace; auto.
    + read_trace; auto.
  - read_trace; auto.
Qed.

(** C4. In a purchase that gets as far as reading the gas price [g]: if
    [g] exceeds [maxGasPriceWei], [buyNow] throws "Gas price too high"
    and submits nothing; if [g] is at most [maxGasPriceWei] (equality
    included), the transaction is submitted, with gas price [g] and gas
    limit 300000.  So nothing is submitted exactly when [g] is above the
    ceiling. *)
Theorem gas_guard (this : Bot) (c : Address) (t : TokenId) (p : float) (s : St W)
    (resp : ListingsResponse) (d : ListingsData) (o : Order) (os : list Order)
    (a0 : Action) (acts : list Action) (tx : Transaction) (g : Z)
    (w1 w2 w3 w4 w5 : W) :
  axios_get_listings ext (listings_request this c t) (world s) = (Ok resp, w1) ->
  listings_data resp = Some d ->
  orders d = Some (o :: os) ->
  seaport_validate ext [protocol_data o] (wallet_address (wallet this)) w1 = (Ok true, w2) ->
  seaport_fulfillOrder ext (protocol_data o) (wallet_address (wallet this)) w2
    = (Ok (a0 :: acts), w3) ->
  buildTransaction ext a0 w3 = (Ok tx, w4) ->
  provider_getGasPrice ext w4 = (Ok g, w5) ->
  let out := buyNow lib ext this c t p s in
  (g > maxGasPriceWei this ->
     fst out = Throw (Error ("Gas price too high (" ++ formatGwei lib g ++ " gwei)")%string)
     /\ submitted (new_events s out) = [])
  /\ (g <= maxGasPriceWei this ->
     submitted (new_events s out)
       = [ {| tx_request := tx_request tx; gasPrice := Some g; gasLimit := Some 300000 |} ])
  /\ (submitted (new_events s out) = [] <-> g > maxGasPriceWei this).
Proof.
  intros H1 Hd Ho H2 H3 H4 H5 out.
  assert (Hgt : g > maxGasPriceWei this ->
     fst out = Throw (Error ("Gas price too high (" ++ formatGwei lib g ++ " gwei)")%string)
     /\ submitted (new_events s out) = []).
  { intros Hg. subst out. unfold buyNow, fetchListingOrder. run.
    rewrite H1; simpl. rewrite Hd, Ho; simpl. rewrite H2; simpl.
    rewrite H3; simpl. rewrite H4; simpl. rewrite H5; simpl.
    replace (g >? maxGasPriceWei this) with true by (symmetry; apply Z.gtb_lt; lia).
    simpl. read_trace. auto. }
  assert (Hle : g <= maxGasPriceWei this ->
     submitted (new_events s out)
       = [ {| tx_request := tx_request tx; gasPrice := Some g; gasLimit := Some 300000 |} ]).
  { intros Hg. subst out. unfold buyNow, fetchListingOrder. run.
    rewrite H1; simpl. rewrite Hd, Ho; simpl. rewrite H2; simpl.
    rewrite H3; simpl. rewrite H4; simpl. rewrite H5; simpl.
    replace (g >? maxGasPriceWei this) with false
      by (symmetry; rewrite Z.gtb_ltb; apply Z.ltb_ge; lia).
    simpl.
    destruct (wallet_sendTransaction ext _ w5) as [[txr|e] w6]; simpl.
    - destruct (txResponse_wait ext (tx_handle txr) w6) as [[rc|e] w7]; simpl.
      + destruct (status_is_zero rc); simpl; read_trace; reflexivity.
      + read_trace; reflexivity.
    - read_trace; reflexivity. }
  split; [exact Hgt|]. split; [exact Hle|].
  split.
  - intros Hnone. destruct (Z_le_gt_dec g (maxGasPriceWei this)) as [Hg|Hg]; auto.
    rewrite (Hle Hg) in Hnone. discriminate.
  - intros Hg. apply Hgt; exact Hg.
Qed.


(** *** Prerequisite manager *)

Lemma bind_Ok {A B : Type} (m : M W A) (k : A -> M W B) (s s' : St W) (a : A) :
  m s = (Ok a, s') -> bind m k s = k a s'.
Proof. intros H; unfold bind; rewrite H; reflexivity. Qed.

Lemma bind_Throw {A B : Type} (m : M W A) (k : A -> M W B) (s s' : St W) (e : JsError) :
  m s = (Throw e, s') -> bind m k s = (Throw e, s').
Proof. intros H; unfold bind; rewrite H; reflexivity. Qed.

Lemma appends_run {A : Type} (P : Event -> Prop) (m : M W A) (s s' : St W) (r : Res A) :
  appends P m -> m s = (r, s') ->
  exists evs, trace s' = trace s ++ evs /\ Forall P evs.
Proof. intros H E. specialize (H s). rewrite E in H. exact H. Qed.

(** Events seen from an earlier state: those up to a later state, then
    those after it. *)
Lemma new_events_split {A : Type} (s s' : St W) (out : Res A * St W)
    (pre post : list Event) :
  trace s' = trace s ++ pre ->
  trace (snd out) = trace s' ++ post ->
  new_events s out = pre ++ post /\ new_events s' out = post.
Proof.
  intros E1 E2. unfold new_events. rewrite E2. split.
  - rewrite E1, <- app_assoc. apply skipn_length_app.
  - apply skipn_length_app.
Qed.

Lemma deposits_app (l r : list Event) : deposits (l ++ r) = deposits l ++ deposits r.
Proof. apply flat_map_app. Qed.

Lemma created_orders_app (l r : list Event) :
  created_orders (l ++ r) = created_orders l ++ created_orders r.
Proof. apply flat_map_app. Qed.

(** All methods, unfolded down to the calls they make. *)
Ltac appends_all :=
  unfold monitorCollection, monitor_cycle, process_listing, dispatch, makeOffer,
    buyNow, postOfferToOpenSea, getRoyaltyInfo, approveWeth, wrapEthIfNeeded,
    fetchListingOrder, fetchNewListings;
  repeat first [ apply delay_appends | appends_step ]; simpl; auto.

(** C7. [wrapEthIfNeeded] reads the WETH balance [b].  It deposits only
    when [b] is below the required amount, and then exactly the deficit;
    with [b] at or above the required amount it does nothing after the
    read.  When the balance read by a second call is sufficient, that
    call deposits nothing, so the two calls together deposit at most
    once. *)
Theorem wrap_exactly_the_deficit (this : Bot) (required : Z) (s : St W) (b : Z) (w1 : W) :
  weth_balanceOf ext (wallet_address (wallet this)) (world s) = (Ok b, w1) ->
  let out1 := wrapEthIfNeeded lib ext this required s in
  let out2 := wrapEthIfNeeded lib ext this required (snd out1) in
  deposits (new_events s out1) = (if b <? required then [required - b] else [])
  /\ (required <= b ->
      out1 = (Ok tt, mkSt w1 (trace s ++ [EBalanceOf (wallet_address (wallet this))])))
  /\ (forall (b2 : Z) (w2 : W),
        weth_balanceOf ext (wallet_address (wallet this)) (world (snd out1)) = (Ok b2, w2) ->
        required <= b2 ->
        deposits (new_events (snd out1) out2) = []
        /\ (List.length (deposits (new_events s out2)) <= 1)%nat).
Proof.
  intros Hb out1 out2.
  assert (D1 : deposits (new_events s out1) = (if b <? required then [required - b] else [])).
  { subst out1. unfold wrapEthIfNeeded. run. rewrite Hb; simpl.
    destruct (b <? required); simpl.
    - destruct (weth_deposit ext (required - b) w1) as [[tx|e] w2]; simpl.
      + destruct (contractTx_wait ext tx w2) as [[u|e] w3]; simpl;
          read_trace; reflexivity.
      + read_trace; reflexivity.
    - read_trace; reflexivity. }
  split; [exact D1|]. split.
  - intros Hle. subst out1. unfold wrapEthIfNeeded. run. rewrite Hb; simpl.
    replace (b <? required) with false by (symmetry; apply Z.ltb_ge; lia).
    reflexivity.
  - intros b2 w2 Hb2 Hle.
    assert (D2 : deposits (new_events (snd out1) out2) = []).
    { subst out2. unfold wrapEthIfNeeded at 1. run. rewrite Hb2; simpl.
      replace (b2 <? required) with false by (symmetry; apply Z.ltb_ge; lia).
      simpl. read_trace. reflexivity. }
    split; [exact D2|].
    assert (A1 : appends (fun _ => True) (wrapEthIfNeeded lib ext this required))
      by appends_all.
    destruct (A1 s) as (e1 & E1 & _). fold out1 in E1.
    destruct (A1 (snd out1)) as (e2 & E2 & _). fold out2 in E2.
    destruct (new_events_split s (snd out1) out2 e1 e2 E1 E2) as [N1 N2].
    rewrite N1, deposits_app. rewrite N2 in D2. rewrite D2, app_nil_r.
    assert (N0 : new_events s out1 = e1).
    { unfold new_events. rewrite E1. apply skipn_length_app. }
    rewrite <- N0, D1. destruct (b <? required); simpl; lia.
Qed.



(** *** Offer executor *)

Lemma not_create_none (evs : list Event) :
  Forall not_create evs -> created_orders evs = [].
Proof.
  induction 1 as [|ev evs H _ IH]; simpl; auto.
  destruct ev; simpl in *; auto; contradiction.
Qed.

Lemma makeOffer_after_lookup (this : Bot) (c : Address) (t : TokenId) (amt : float)
    (days : Z) (s s1 s2 s3 : St W) (wei : Z) (looked : option RoyaltyInfo)
    (now : Z) (w4 : W) (leg : Z) :
  parseEther lib (numberToString lib amt) = Ok wei ->
  wrapEthIfNeeded lib ext this wei s = (Ok tt, s1) ->
  approveWeth lib ext this wei s1 = (Ok tt, s2) ->
  getRoyaltyInfo ext this c s2 = (Ok looked, s3) ->
  Date_now ext (world s3) = (now, w4) ->
  let info := match looked with Some i => i | None => fallback_royalty end in
  royalty_amount wei (basisPoints info) = Ok leg ->
  makeOffer lib ext this c t amt days s
  = try_catch
      (offer_tail ext this c t amt
         (order_terms this c t wei leg (recipient info) (now / 1000 + days * 86400)))
      offer_catch
      (mkSt w4 (trace s3 ++ [EDateNow]))
    /\ exists pre, trace s3 = trace s ++ pre /\ created_orders pre = [].
Proof.
  intros Hparse Hwrap Happrove Hlook Hnow info Hleg. split.
  - unfold makeOffer, try_catch.
    erewrite bind_Ok; [| unfold lift; rewrite Hparse; reflexivity ].
    erewrite bind_Ok; [| exact Hwrap ].
    erewrite bind_Ok; [| exact Happrove ].
    erewrite bind_Ok; [| exact Hlook ].
    erewrite bind_Ok; [| unfold call; rewrite Hnow; reflexivity ].
    erewrite bind_Ok; [| unfold lift; fold info; rewrite Hleg; reflexivity ].
    reflexivity.
  - assert (A1 : appends not_create (wrapEthIfNeeded lib ext this wei)) by appends_all.
    assert (A2 : appends not_create (approveWeth lib ext this wei)) by appends_all.
    assert (A3 : appends not_create (getRoyaltyInfo ext this c)) by appends_all.
    destruct (appends_run _ _ _ _ _ A1 Hwrap) as (e1 & E1 & F1).
    destruct (appends_run _ _ _ _ _ A2 Happrove) as (e2 & E2 & F2).
    destruct (appends_run _ _ _ _ _ A3 Hlook) as (e3 & E3 & F3).
    exists (e1 ++ e2 ++ e3). split.
    + rewrite E3, E2, E1. repeat rewrite <- app_assoc. reflexivity.
    + rewrite !created_orders_app.
      rewrite (not_create_none _ F1), (not_create_none _ F2), (not_create_none _ F3).
      reflexivity.
Qed.

Lemma offer_tail_creates_once (this : Bot) (c : Address) (t : TokenId) (amt : float)
    (terms : OrderTerms) (st : St W) :
  let out := try_catch (offer_tail ext this c t amt terms) offer_catch st in
  exists post, trace (snd out) = trace st ++ post /\ created_orders post = [terms].
Proof.
  unfold offer_tail, offer_catch, postOfferToOpenSea. run.
  destruct (seaport_createOrder ext terms _ (world st)) as [[h|e] w5]; simpl.
  - destruct (executeAllActions ext h w5) as [[so|e] w6]; simpl.
    + destruct (axios_post_offer ext (offers_request this) so w6) as [[pr|e] w7]; simpl.
      * destruct (post_data pr); simpl; repeat rewrite <- app_assoc; simpl;
          eexists; split; try reflexivity; reflexivity.
      * repeat rewrite <- app_assoc; simpl; eexists; split; try reflexivity; reflexivity.
    + repeat rewrite <- app_assoc; simpl; eexists; split; try reflexivity; reflexivity.
  - repeat rewrite <- app_assoc; simpl; eexists; split; try reflexivity; reflexivity.
Qed.

Lemma makeOffer_creates (this : Bot) (c : Address) (t : TokenId) (amt : float)
    (days : Z) (s s1 s2 s3 : St W) (wei : Z) (looked : option RoyaltyInfo)
    (now : Z) (w4 : W) (leg : Z) :
  parseEther lib (numberToString lib amt) = Ok wei ->
  wrapEthIfNeeded lib ext this wei s = (Ok tt, s1) ->
  approveWeth lib ext this wei s1 = (Ok tt, s2) ->
  getRoyaltyInfo ext this c s2 = (Ok looked, s3) ->
  Date_now ext (world s3) = (now, w4) ->
  let info := match looked with Some i => i | None => fallback_royalty end in
  royalty_amount wei (basisPoints info) = Ok leg ->
  created_orders (new_events s (makeOffer lib ext this c t amt days s))
  = [order_terms this c t wei leg (recipient info) (now / 1000 + days * 86400)].
Proof.
  intros Hparse Hwrap Happrove Hlook Hnow info Hleg.
  destruct (makeOffer_after_lookup this c t amt days s s1 s2 s3 wei looked now w4 leg
              Hparse Hwrap Happrove Hlook Hnow Hleg) as (Eq & pre & Epre & Cpre).
  fold info in Eq. rewrite Eq.
  destruct (offer_tail_creates_once this c t amt
              (order_terms this c t wei leg (recipient info) (now / 1000 + days * 86400))
              (mkSt w4 (trace s3 ++ [EDateNow]))) as (post & Epost & Cpost).
  simpl in Epost.
  assert (E4 : trace (mkSt w4 (trace s3 ++ [EDateNow])) = trace s ++ (pre ++ [EDateNow])).
  { simpl. rewrite Epre, <- app_assoc. reflexivity. }
  destruct (new_events_split s _ _ _ post E4 Epost) as [N _].
  rewrite N, !created_orders_app, Cpre, Cpost. reflexivity.
Qed.

(** C6. In an offer that reaches order construction with a non-negative
    amount [wei] and a non-negative royalty rate [bp], the one order
    handed to Seaport has as its royalty leg [wei * bp / 10000], the
    quotient rounded down: [leg * 10000 <= wei * bp < (leg + 1) * 10000].
    For 1000 basis points on 1000000 base units the leg is 100000. *)
Theorem royalty_leg_rounds_down (this : Bot) (c : Address) (t : TokenId) (amt : float)
    (days : Z) (s s1 s2 s3 : St W) (wei : Z) (looked : option RoyaltyInfo)
    (now : Z) (w4 : W) (bp : Z) :
  parseEther lib (numberToString lib amt) = Ok wei ->
  wrapEthIfNeeded lib ext this wei s = (Ok tt, s1) ->
  approveWeth lib ext this wei s1 = (Ok tt, s2) ->
  getRoyaltyInfo ext this c s2 = (Ok looked, s3) ->
  Date_now ext (world s3) = (now, w4) ->
  let info := match looked with Some i => i | None => fallback_royalty end in
  basisPoints info = Some bp ->
  0 <= wei ->
  0 <= bp ->
  let leg := wei * bp / 10000 in
  let terms := order_terms this c t wei leg (recipient info) (now / 1000 + days * 86400) in
  created_orders (new_events s (makeOffer lib ext this c t amt days s)) = [terms]
  /\ map ci_amount (consideration terms) = [None; Some leg]
  /\ royalty_amount wei (Some bp) = Ok leg
  /\ leg * 10000 <= wei * bp < (leg + 1) * 10000
  /\ royalty_amount 1000000 (Some 1000) = Ok 100000.
Proof.
  intros Hparse Hwrap Happrove Hlook Hnow info Hbp Hwei Hbp0 leg terms.
  assert (Hleg : royalty_amount wei (Some bp) = Ok leg).
  { unfold royalty_amount, BigNumber_mul, BigNumber_div; simpl.
    subst leg. rewrite Z.quot_div_nonneg by nia. reflexivity. }
  split.
  - subst terms.
    apply (makeOffer_creates this c t amt days s s1 s2 s3 wei looked now w4 leg);
      auto.
    fold info. rewrite Hbp. exact Hleg.
  - split; [reflexivity|]. split; [exact Hleg|]. split; [|reflexivity].
    subst leg.
    pose proof (Z.div_mod (wei * bp) 10000 ltac:(lia)) as Hdm.
    pose proof (Z.mod_pos_bound (wei * bp) 10000 ltac:(lia)) as Hmb.
    lia.
Qed.

(** C9. In an offer whose royalty lookup fails (the request is rejected,
    or the reply has no body), [getRoyaltyInfo] returns nothing instead
    of throwing, and [makeOffer] goes on with the fallback: the order it
    hands to Seaport pays 1000 basis points to the default recipient,
    and when creation, signing and posting succeed, [makeOffer] returns
    the offer result. *)
Theorem royalty_failure_absorbed (this : Bot) (c : Address) (t : TokenId) (amt : float)
    (days : Z) (s s1 s2 : St W) (wei : Z) :
  parseEther lib (numberToString lib amt) = Ok wei ->
  wrapEthIfNeeded lib ext this wei s = (Ok tt, s1) ->
  approveWeth lib ext this wei s1 = (Ok tt, s2) ->
  lookup_failed (fst (axios_get_asset_contract ext (asset_contract_request this c)
                        (world s2))) = true ->
  let w3 := snd (axios_get_asset_contract ext (asset_contract_request this c) (world s2)) in
  let now := fst (Date_now ext w3) in
  let w4 := snd (Date_now ext w3) in
  let terms := order_terms this c t wei (Z.quot (wei * 1000) 10000)
                 (JString "0x0000a26b00c1F0DF003000390027140000fAa719")
                 (now / 1000 + days * 86400) in
  let out := makeOffer lib ext this c t amt days s in
  getRoyaltyInfo ext this c s2
    = (Ok None, mkSt w3 (trace s2 ++ [EAxiosGet (asset_contract_request this c)]))
  /\ created_orders (new_events s out) = [terms]
  /\ (forall (h : OrderHandle) (so : SignedOrder) (presp : PostResponse) (pd : PostData)
             (w5 w6 w7 : W),
        seaport_createOrder ext terms (wallet_address (wallet this)) w4 = (Ok h, w5) ->
        executeAllActions ext h w5 = (Ok so, w6) ->
        axios_post_offer ext (offers_request this) so w6 = (Ok presp, w7) ->
        post_data presp = Some pd ->
        fst out = Ok {| orderHash := order_hash pd; offerAmount := amt;
                        expiration := (now / 1000 + days * 86400) * 1000 |}).
Proof.
  intros Hparse Hwrap Happrove Hfail w3 now w4 terms out.
  assert (Hlook : getRoyaltyInfo ext this c s2
    = (Ok None, mkSt w3 (trace s2 ++ [EAxiosGet (asset_contract_request this c)]))).
  { subst w3. unfold getRoyaltyInfo. run.
    destruct (axios_get_asset_contract ext (asset_contract_request this c) (world s2))
      as [[resp|e] w]; simpl in *.
    - destruct (contract_data resp); simpl in *; [discriminate | reflexivity].
    - reflexivity. }
  assert (Hnow : Date_now ext (world (mkSt w3 (trace s2 ++ [EAxiosGet (asset_contract_request this c)])))
                 = (now, w4)).
  { simpl. subst now w4. destruct (Date_now ext w3); reflexivity. }
  assert (Hleg : royalty_amount wei (basisPoints fallback_royalty)
                 = Ok (Z.quot (wei * 1000) 10000)) by reflexivity.
  split; [exact Hlook|]. split.
  - subst out terms.
    apply (makeOffer_creates this c t amt days s s1 s2 _ wei None now w4 _
             Hparse Hwrap Happrove Hlook Hnow Hleg).
  - intros h so presp pd w5 w6 w7 Hc He Hp Hpd.
    destruct (makeOffer_after_lookup this c t amt days s s1 s2 _ wei None now w4 _
                Hparse Hwrap Happrove Hlook Hnow Hleg) as (Eq & _).
    subst out. rewrite Eq. simpl.
    unfold offer_tail, postOfferToOpenSea. run. fold terms.
    rewrite Hc; simpl. rewrite He; simpl. rewrite Hp; simpl. rewrite Hpd; simpl.
    reflexivity.
Qed.


(** *** Monitoring loop *)

(** One turn of the loop, by the outcome of its phases. *)
Lemma monitor_cycle_run (this : Bot) (slug : string) (s : St W) :
  monitor_cycle lib ext this slug s =
  match fetchNewListings ext this slug 10 s with
  | (Ok listings, s1) =>
    match for_of listings (process_listing lib ext this) s1 with
    | (Ok _, s2) => delay ext (pollingInterval (config this)) s2
    | (Throw e, s2) => monitor_catch ext this e s2
    end
  | (Throw e, s1) => monitor_catch ext this e s1
  end.
Proof.
  unfold monitor_cycle, monitor_catch, try_catch, bind.
  destruct (fetchNewListings ext this slug 10 s) as [[ls|e] s1]; auto.
  destruct (for_of ls (process_listing lib ext this) s1) as [[u|e] s2]; auto.
Qed.

Lemma monitor_catch_ok (this : Bot) (e : JsError) (s : St W) :
  monitor_catch ext this e s
  = (Ok tt, mkSt (setTimeout_elapsed ext (errorRetryDelay (config this)) (world s))
                 (trace s ++ [EConsoleError "Monitoring error:" (message e);
                              EDelay (errorRetryDelay (config this))])).
Proof.
  unfold monitor_catch, delay. run. rewrite <- app_assoc. reflexivity.
Qed.

(** The turn never throws: whatever happens inside, it ends in a sleep. *)
Lemma monitor_cycle_never_throws (this : Bot) (slug : string) (s : St W) :
  fst (monitor_cycle lib ext this slug s) = Ok tt.
Proof.
  rewrite monitor_cycle_run.
  destruct (fetchNewListings ext this slug 10 s) as [[ls|e] s1].
  - destruct (for_of ls (process_listing lib ext this) s1) as [[u|e] s2].
    + reflexivity.
    + rewrite monitor_catch_ok. reflexivity.
  - rewrite monitor_catch_ok. reflexivity.
Qed.

Lemma monitor_loop_never_throws (this : Bot) (slug : string) (n : nat) (s : St W) :
  fst (monitor_loop lib ext this slug n s) = Ok tt.
Proof.
  revert s. induction n as [|n IH]; intros s; simpl; auto.
  unfold bind. pose proof (monitor_cycle_never_throws this slug s) as H.
  destruct (monitor_cycle lib ext this slug s) as [r s1]; simpl in H; subst r.
  apply IH.
Qed.

Lemma monitorCollection_never_throws (this : Bot) (slug : string) (n : nat) (s : St W) :
  fst (monitorCollection lib ext this slug n s) = Ok tt.
Proof. unfold monitorCollection. run. apply monitor_loop_never_throws. Qed.

(** [fetchNewListings] by the reply of the endpoint: a failure is
    logged and turned into the empty batch. *)
Lemma fetchNewListings_run (this : Bot) (slug : string) (limit : Z) (s : St W) :
  fetchNewListings ext this slug limit s =
  let req := events_request this slug limit in
  let reply := axios_get_events ext req (world s) in
  if fetch_failed (fst reply)
  then (Ok [], mkSt (snd reply)
                 (trace s ++ [EAxiosGet req;
                              EConsoleError "Failed to fetch listings:"
                                (failure_message (fst reply)
                                   "Cannot read properties of undefined (reading 'asset_events')")]))
  else (Ok match fst reply with
           | Ok {| events_data := Some {| asset_events := Some l |} |} => l
           | _ => []
           end,
        mkSt (snd reply) (trace s ++ [EAxiosGet req])).
Proof.
  unfold fetchNewListings. run.
  destruct (axios_get_events ext (events_request this slug limit) (world s))
    as [[resp|e] w1]; simpl.
  - destruct resp as [[d|]]; simpl.
    + destruct d as [[l|]]; reflexivity.
    + rewrite <- app_assoc. reflexivity.
  - rewrite <- app_assoc. reflexivity.
Qed.

(** Every turn begins with the listing fetch. *)
Lemma monitor_cycle_fetches_first (this : Bot) (slug : string) (s : St W) :
  exists rest,
    new_events s (monitor_cycle lib ext this slug s)
    = EAxiosGet (events_request this slug 10) :: rest.
Proof.
  assert (F : exists tail ls s1,
    fetchNewListings ext this slug 10 s = (Ok ls, s1)
    /\ trace s1 = trace s ++ EAxiosGet (events_request this slug 10) :: tail).
  { rewrite fetchNewListings_run. simpl.
    destruct (fetch_failed _); do 3 eexists; split; reflexivity. }
  destruct F as (tail & ls & s1 & Ef & Et).
  rewrite monitor_cycle_run, Ef.
  assert (Af : appends (fun _ => True) (for_of ls (process_listing lib ext this)))
    by appends_all.
  destruct (for_of ls (process_listing lib ext this) s1) as [[u|e] s2] eqn:El;
    destruct (appends_run _ _ _ _ _ Af El) as (evs & E2 & _).
  - unfold delay, new_events; simpl. rewrite E2, Et.
    repeat rewrite <- app_assoc. rewrite skipn_length_app. simpl. eexists; reflexivity.
  - rewrite monitor_catch_ok. unfold new_events; simpl. rewrite E2, Et.
    repeat rewrite <- app_assoc. rewrite skipn_length_app. simpl. eexists; reflexivity.
Qed.

Lemma for_of_stops_at_throw {A : Type} (body : A -> M W unit) (pre post : list A) (x : A)
    (s1 s2 s3 : St W) (e : JsError) :
  for_of pre body s1 = (Ok tt, s2) ->
  body x s2 = (Throw e, s3) ->
  for_of (pre ++ x :: post) body s1 = (Throw e, s3).
Proof.
  revert s1. induction pre as [|y pre IH]; intros s1 Hpre Hx; simpl in *.
  - unfold ret in Hpre. injection Hpre as <-. unfold bind. rewrite Hx. reflexivity.
  - unfold bind in *. destruct (body y s1) as [[u|e'] s1'].
    + apply IH; auto.
    + discriminate.
Qed.


(** The loop body throws exactly when its executor throws: [buyNow] for
    a price below the threshold, [makeOffer] otherwise. *)
Lemma process_listing_throws (this : Bot) (l : Listing) (s2 s3 : St W) (e : JsError) :
  process_listing lib ext this l s2 = (Throw e, s3) <->
  exists a,
    asset l = Some a
    /\ let p := etherToNumber lib (ending_price l) in
       let st := mkSt (world s2)
                   (trace s2 ++ [EConsoleLog ("Found NFT #" ++ token_id a ++ " for "
                                              ++ numberToString lib p ++ " ETH")%string]) in
       ((p <? buyThreshold (config this))%float = true
        /\ buyNow lib ext this (address (asset_contract a)) (token_id a) p st = (Throw e, s3))
       \/ ((p <? buyThreshold (config this))%float = false
           /\ makeOffer lib ext this (address (asset_contract a)) (token_id a)
                (p * offerPercentage (config this))%float 7 st = (Throw e, s3)).
Proof.
  unfold process_listing. destruct (asset l) as [a|].
  - unfold classify, dispatch. unfold bind at 1. unfold console_log, emit.
    split.
    + intros H. exists a. split; [reflexivity|]. cbv zeta.
      destruct (etherToNumber lib (ending_price l) <? buyThreshold (config this))%float.
      * left. split; [reflexivity|]. revert H. unfold bind.
        destruct (buyNow lib ext this _ _ _ _) as [[r|e'] s'].
        -- destruct (truthy (txHash r)); discriminate.
        -- intros [= -> ->]; reflexivity.
      * right. split; [reflexivity|]. revert H. unfold bind.
        destruct (makeOffer lib ext this _ _ _ _ _) as [[r|e'] s'].
        -- destruct (truthy (orderHash r)); discriminate.
        -- intros [= -> ->]; reflexivity.
    + intros (a' & [= <-] & H). cbv zeta in H.
      destruct H as [[Hlt H]|[Hlt H]]; rewrite Hlt; unfold bind; rewrite H; reflexivity.
  - split; [discriminate|]. intros (a & Ha & _). discriminate.
Qed.

(** C2, as the code has it. When the executor of a listing throws, the
    [for ... of] loop ends there: the listings after it in the batch are
    not processed in this turn.  The error is caught by the handler of
    the turn, which logs "Monitoring error:" with its message and sleeps
    [errorRetryDelay]; the turn ends normally and the loop goes on with
    the next fetch. *)
Theorem executor_failure_ends_the_batch (this : Bot) (slug : string)
    (pre post : list Listing) (l : Listing) (s s1 s2 s3 : St W) (e : JsError) :
  fetchNewListings ext this slug 10 s = (Ok (pre ++ l :: post), s1) ->
  for_of pre (process_listing lib ext this) s1 = (Ok tt, s2) ->
  process_listing lib ext this l s2 = (Throw e, s3) ->
  let out := monitor_cycle lib ext this slug s in
  for_of (pre ++ l :: post) (process_listing lib ext this) s1 = (Throw e, s3)
  /\ out = (Ok tt, mkSt (setTimeout_elapsed ext (errorRetryDelay (config this)) (world s3))
                        (trace s3 ++ [EConsoleError "Monitoring error:" (message e);
                                      EDelay (errorRetryDelay (config this))]))
  /\ (exists rest, new_events (snd out) (monitor_cycle lib ext this slug (snd out))
                   = EAxiosGet (events_request this slug 10) :: rest)
  /\ (forall n, fst (monitor_loop lib ext this slug n (snd out)) = Ok tt).
Proof.
  intros Hf Hpre Hl out.
  pose proof (for_of_stops_at_throw _ pre post l s1 s2 s3 e Hpre Hl) as Hall.
  split; [exact Hall|]. split.
  - subst out. rewrite monitor_cycle_run, Hf, Hall. apply monitor_catch_ok.
  - split.
    + apply monitor_cycle_fetches_first.
    + intros n. apply monitor_loop_never_throws.
Qed.

(** C3, as the code has it. When the listing fetch fails,
    [fetchNewListings] logs "Failed to fetch listings:" and yields the
    empty batch, so the turn ends normally after one sleep of
    [pollingInterval]; the next turn starts with the fetch again, and
    nothing is ever thrown out of [monitorCollection]. *)
Theorem fetch_failure_polls_again (this : Bot) (slug : string) (s : St W) :
  let req := events_request this slug 10 in
  let reply := axios_get_events ext req (world s) in
  fetch_failed (fst reply) = true ->
  let out := monitor_cycle lib ext this slug s in
  out = (Ok tt,
         mkSt (setTimeout_elapsed ext (pollingInterval (config this)) (snd reply))
              (trace s ++ [EAxiosGet req;
                           EConsoleError "Failed to fetch listings:"
                             (failure_message (fst reply)
                                "Cannot read properties of undefined (reading 'asset_events')");
                           EDelay (pollingInterval (config this))]))
  /\ delays (new_events s out) = [pollingInterval (config this)]
  /\ (exists rest, new_events (snd out) (monitor_cycle lib ext this slug (snd out))
                   = EAxiosGet req :: rest)
  /\ (forall n s0, fst (monitorCollection lib ext this slug n s0) = Ok tt).
Proof.
  intros req reply Hfail out.
  assert (E : out = (Ok tt,
         mkSt (setTimeout_elapsed ext (pollingInterval (config this)) (snd reply))
              (trace s ++ [EAxiosGet req;
                           EConsoleError "Failed to fetch listings:"
                             (failure_message (fst reply)
                                "Cannot read properties of undefined (reading 'asset_events')");
                           EDelay (pollingInterval (config this))]))).
  { subst out. rewrite monitor_cycle_run, fetchNewListings_run. simpl.
    fold req. fold reply. rewrite Hfail. simpl. unfold ret, delay. simpl.
    rewrite <- app_assoc. reflexivity. }
  split; [exact E|]. split.
  - rewrite E. rewrite new_events_app. reflexivity.
  - split.
    + apply monitor_cycle_fetches_first.
    + intros n s0. apply monitorCollection_never_throws.
Qed.

(** *** The API key *)

Lemma fetchNewListings_requests (this : Bot) (slug : string) (limit : Z) (s : St W) :
  requests (new_events s (fetchNewListings ext this slug limit s))
  = [events_request this slug limit].
Proof.
  rewrite fetchNewListings_run. simpl.
  destruct (fetch_failed _); rewrite new_events_app; reflexivity.
Qed.

Lemma fetchListingOrder_requests (this : Bot) (c : Address) (t : TokenId) (s : St W) :
  requests (new_events s (fetchListingOrder ext this c t s)) = [listings_request this c t].
Proof.
  unfold fetchListingOrder. run.
  destruct (axios_get_listings ext (listings_request this c t) (world s))
    as [[resp|e] w1]; simpl.
  - destruct (listings_data resp); simpl; read_trace; reflexivity.
  - read_trace; reflexivity.
Qed.

Lemma getRoyaltyInfo_requests (this : Bot) (c : Address) (s : St W) :
  requests (new_events s (getRoyaltyInfo ext this c s)) = [asset_contract_request this c].
Proof.
  unfold getRoyaltyInfo. run.
  destruct (axios_get_asset_contract ext (asset_contract_request this c) (world s))
    as [[resp|e] w1]; simpl.
  - destruct (contract_data resp); simpl; read_trace; reflexivity.
  - read_trace; reflexivity.
Qed.

Lemma postOfferToOpenSea_requests (this : Bot) (o : SignedOrder) (s : St W) :
  requests (new_events s (postOfferToOpenSea ext this o s)) = [offers_request this].
Proof.
  unfold postOfferToOpenSea. run.
  destruct (axios_post_offer ext (offers_request this) o (world s))
    as [[resp|e] w1]; simpl.
  - destruct (post_data resp); simpl; read_trace; reflexivity.
  - read_trace; reflexivity.
Qed.

Lemma constructor_forgets_key (pk rpc k : option string) (cfg : ConfigOverrides)
    (this : Bot) :
  constructor lib pk rpc k cfg = Ok this -> openseaApiKey this = JUndefined.
Proof.
  unfold constructor.
  destruct (falsy_arg pk || falsy_arg rpc); [discriminate|].
  destruct (computeAddress lib _); simpl; [|discriminate].
  destruct (parseGwei lib _); simpl; [|discriminate].
  intros [= <-]. reflexivity.
Qed.

(** C10. The constructor builds the same instance whatever its
    [openseaApiKey] argument is, and on that instance
    [this.openseaApiKey] is undefined.  Each of the four request methods
    sends one request, with an undefined X-API-KEY header, and so does
    every request sent during [monitorCollection], [buyNow] and
    [makeOffer]. *)
Theorem api_key_is_never_stored (pk rpc k1 k2 : option string) (cfg : ConfigOverrides)
    (this : Bot) :
  constructor lib pk rpc k1 cfg = Ok this ->
  constructor lib pk rpc k1 cfg = constructor lib pk rpc k2 cfg
  /\ openseaApiKey this = JUndefined
  /\ (forall slug limit (s : St W),
        requests (new_events s (fetchNewListings ext this slug limit s))
          = [events_request this slug limit]
        /\ x_api_key (events_request this slug limit) = JUndefined)
  /\ (forall c t (s : St W),
        requests (new_events s (fetchListingOrder ext this c t s))
          = [listings_request this c t]
        /\ x_api_key (listings_request this c t) = JUndefined)
  /\ (forall c (s : St W),
        requests (new_events s (getRoyaltyInfo ext this c s))
          = [asset_contract_request this c]
        /\ x_api_key (asset_contract_request this c) = JUndefined)
  /\ (forall o (s : St W),
        requests (new_events s (postOfferToOpenSea ext this o s)) = [offers_request this]
        /\ x_api_key (offers_request this) = JUndefined)
  /\ (forall slug n (s : St W),
        Forall (fun r => x_api_key r = JUndefined)
               (requests (new_events s (monitorCollection lib ext this slug n s))))
  /\ (forall c t p (s : St W),
        Forall (fun r => x_api_key r = JUndefined)
               (requests (new_events s (buyNow lib ext this c t p s))))
  /\ (forall c t a d (s : St W),
        Forall (fun r => x_api_key r = JUndefined)
               (requests (new_events s (makeOffer lib ext this c t a d s)))).
Proof.
  intros Hc. pose proof (constructor_forgets_key _ _ _ _ _ Hc) as Hk.
  split; [reflexivity|]. split; [exact Hk|].
  split; [intros; split; [apply fetchNewListings_requests | exact Hk]|].
  split; [intros; split; [apply fetchListingOrder_requests | exact Hk]|].
  split; [intros; split; [apply getRoyaltyInfo_requests | exact Hk]|].
  split; [intros; split; [apply postOfferToOpenSea_requests | exact Hk]|].
  rewrite <- Hk.
  split; [|split]; intros; apply keyed_requests, appends_new_events.
  - apply monitorCollection_keyed.
  - apply buyNow_keyed.
  - apply makeOffer_keyed.
Qed.

End Claims.

(** * The statements at work in the concrete world *)

(** C1 at the default configuration: 0.05 ETH is bought, 0.2 ETH and the
    threshold itself, 0.1 ETH, are answered with an offer. *)
Lemma classification_of_listing_witness :
  classify DEFAULT_CONFIG "0xNFT" "1" 0.05%float = Buy "0xNFT" "1" 0.05%float
  /\ classify DEFAULT_CONFIG "0xNFT" "2" 0.2%float
     = Offer "0xNFT" "2" (0.2 * 0.8)%float
  /\ classify DEFAULT_CONFIG "0xNFT" "3" 0.1%float
     = Offer "0xNFT" "3" (0.1 * 0.8)%float.
Proof.
  pose (ext := sim_ext orders_except_2 royalty_down 20000000000).
  destruct (classification_of_listing sim_lib ext sim_bot
              (sim_listing "1" 50000000000000000) _ eq_refl) as (_ & Hbuy & _ & _).
  destruct (classification_of_listing sim_lib ext sim_bot
              (sim_listing "2" 200000000000000000) _ eq_refl) as (_ & _ & Hoffer & _).
  destruct (classification_of_listing sim_lib ext sim_bot
              (sim_listing "3" 100000000000000000) _ eq_refl) as (_ & _ & _ & Hequal).
  split; [exact (Hbuy eq_refl) | split; [exact (Hoffer eq_refl) | exact (Hequal eq_refl)]].
Defined.

(** C5 on token 2, which has no listed order. *)
Lemma buyNow_without_order_witness :
  let ext := sim_ext orders_except_2 royalty_down 20000000000 in
  let s := sim_world 0 0 [] in
  no_order (fst (axios_get_listings ext (listings_request sim_bot "0xNFT" "2") (world s))) = true
  /\ fst (buyNow sim_lib ext sim_bot "0xNFT" "2" 0.05%float s)
     = Throw (Error "No valid order found")
  /\ submitted (new_events s (buyNow sim_lib ext sim_bot "0xNFT" "2" 0.05%float s)) = [].
Proof.
  intros ext s.
  destruct (buyNow_without_order sim_lib ext sim_bot "0xNFT" "2" 0.05%float s eq_refl)
    as (Hthrow & Hnone & _).
  split; [reflexivity | split; [exact Hthrow | exact Hnone]].
Defined.

(** C4 at the ceiling of 50 gwei (submitted) and at 60 gwei (refused). *)
Lemma gas_guard_witness :
  let s := sim_world 0 0 [] in
  submitted (new_events s
     (buyNow sim_lib (sim_ext orders_except_2 royalty_down 50000000000) sim_bot
        "0xNFT" "1" 0.05%float s))
  = [ {| tx_request := "fulfil order"; gasPrice := Some 50000000000;
         gasLimit := Some 300000 |} ]
  /\ fst (buyNow sim_lib (sim_ext orders_except_2 royalty_down 60000000000) sim_bot
            "0xNFT" "1" 0.05%float s)
     = Throw (Error "Gas price too high (60.0 gwei)")
  /\ submitted (new_events s
       (buyNow sim_lib (sim_ext orders_except_2 royalty_down 60000000000) sim_bot
          "0xNFT" "1" 0.05%float s)) = [].
Proof.
  intros s.
  destruct (gas_guard sim_lib (sim_ext orders_except_2 royalty_down 50000000000) sim_bot
              "0xNFT" "1" 0.05%float s _ _ _ _ _ _ _ 50000000000 _ _ _ _ _
              eq_refl eq_refl eq_refl eq_refl eq_refl eq_refl eq_refl)
    as (_ & Hat & _).
  destruct (gas_guard sim_lib (sim_ext orders_except_2 royalty_down 60000000000) sim_bot
              "0xNFT" "1" 0.05%float s _ _ _ _ _ _ _ 60000000000 _ _ _ _ _
              eq_refl eq_refl eq_refl eq_refl eq_refl eq_refl eq_refl)
    as (Habove & _ & _).
  split; [ exact (Hat ltac:(discriminate)) | exact (Habove eq_refl) ].
Defined.

(** C7 with 0.6 WETH in the wallet and 1 WETH required: the first call
    wraps 0.4 ETH, the second nothing. *)
Lemma wrap_exactly_the_deficit_witness :
  let ext := sim_ext orders_except_2 royalty_down 20000000000 in
  let s := sim_world 600000000000000000 0 [] in
  let out1 := wrapEthIfNeeded sim_lib ext sim_bot 1000000000000000000 s in
  let out2 := wrapEthIfNeeded sim_lib ext sim_bot 1000000000000000000 (snd out1) in
  deposits (new_events s out1) = [400000000000000000]
  /\ deposits (new_events (snd out1) out2) = []
  /\ (List.length (deposits (new_events s out2)) <= 1)%nat.
Proof.
  intros ext s out1 out2.
  destruct (wrap_exactly_the_deficit sim_lib ext sim_bot 1000000000000000000 s
              600000000000000000 _ eq_refl) as (Hdeficit & _ & Hsecond).
  destruct (Hsecond 1000000000000000000 _ eq_refl ltac:(discriminate)) as (Hnone & Hcount).
  split; [ exact Hdeficit | split; [ exact Hnone | exact Hcount ] ].
Defined.


(** C6 on an offer of 1 ETH for a contract with 250 basis points. *)
Lemma royalty_leg_rounds_down_witness :
  let ext := sim_ext orders_except_2 royalty_250 20000000000 in
  let s := sim_world 0 0 [] in
  map (fun terms => map ci_amount (consideration terms))
      (created_orders (new_events s (makeOffer sim_lib ext sim_bot "0xNFT" "7" 1%float 7 s)))
  = [[None; Some 25000000000000000]].
Proof.
  intros ext s.
  destruct (royalty_leg_rounds_down sim_lib ext sim_bot "0xNFT" "7" 1%float 7 s
              (snd (wrapEthIfNeeded sim_lib ext sim_bot 1000000000000000000 s))
              (snd (approveWeth sim_lib ext sim_bot 1000000000000000000
                      (snd (wrapEthIfNeeded sim_lib ext sim_bot 1000000000000000000 s))))
              _ 1000000000000000000 _ _ _ 250
              eq_refl eq_refl eq_refl eq_refl eq_refl eq_refl
              ltac:(discriminate) ltac:(discriminate)) as (Hcreated & _).
  rewrite Hcreated. reflexivity.
Defined.

(** C9 on an offer of 1 ETH while the royalty endpoint answers 500. *)
Lemma royalty_failure_absorbed_witness :
  let ext := sim_ext orders_except_2 royalty_down 20000000000 in
  let s := sim_world 0 0 [] in
  let out := makeOffer sim_lib ext sim_bot "0xNFT" "7" 1%float 7 s in
  fst out = Ok {| orderHash := JString "0xorder"; offerAmount := 1%float;
                  expiration := 1700604800000 |}
  /\ map (fun terms => map (fun leg => (ci_amount leg, ci_recipient leg))
                           (consideration terms))
         (created_orders (new_events s out))
     = [[(None, JString "0xWallet");
         (Some 100000000000000000,
          JString "0x0000a26b00c1F0DF003000390027140000fAa719")]].
Proof.
  intros ext s out.
  destruct (royalty_failure_absorbed sim_lib ext sim_bot "0xNFT" "7" 1%float 7 s
              (snd (wrapEthIfNeeded sim_lib ext sim_bot 1000000000000000000 s))
              (snd (approveWeth sim_lib ext sim_bot 1000000000000000000
                      (snd (wrapEthIfNeeded sim_lib ext sim_bot 1000000000000000000 s))))
              1000000000000000000 eq_refl eq_refl eq_refl eq_refl)
    as (_ & Hcreated & Hresult).
  split.
  - exact (Hresult _ _ _ _ _ _ _ eq_refl eq_refl eq_refl eq_refl).
  - subst out. rewrite Hcreated. reflexivity.
Defined.

(** C2, as the code has it, on the batch of three listings whose second
    has no order: requests go out for tokens 1 and 2 only, and the turn
    sleeps [errorRetryDelay]. *)
Lemma executor_failure_ends_the_batch_witness :
  let ext := sim_ext orders_except_2 royalty_down 20000000000 in
  let s := sim_world 0 0 [three_listings] in
  let out := monitor_cycle sim_lib ext sim_bot "cool-cats-nft" s in
  fst out = Ok tt
  /\ map url (requests (trace (snd out)))
     = [ (OPENSEA_API_URL ++ "/events")%string;
         (OPENSEA_API_URL ++ "/asset/0xNFT/1/listings")%string;
         (OPENSEA_API_URL ++ "/asset/0xNFT/2/listings")%string ]
  /\ delays (trace (snd out)) = [30000].
Proof.
  intros ext s out.
  destruct (executor_failure_ends_the_batch sim_lib ext sim_bot "cool-cats-nft"
              [sim_listing "1" 50000000000000000] [sim_listing "3" 50000000000000000]
              (sim_listing "2" 50000000000000000) s
              (snd (fetchNewListings ext sim_bot "cool-cats-nft" 10 s))
              (snd (process_listing sim_lib ext sim_bot (sim_listing "1" 50000000000000000)
                      (snd (fetchNewListings ext sim_bot "cool-cats-nft" 10 s))))
              (snd (process_listing sim_lib ext sim_bot (sim_listing "2" 50000000000000000)
                 (snd (process_listing sim_lib ext sim_bot (sim_listing "1" 50000000000000000)
                         (snd (fetchNewListings ext sim_bot "cool-cats-nft" 10 s))))))
              (Error "No valid order found")
              eq_refl eq_refl eq_refl) as (_ & Hcycle & _).
  subst out. rewrite Hcycle. repeat split.
Defined.

(** C3, as the code has it, on a fetch that fails with a network error. *)
Lemma fetch_failure_polls_again_witness :
  let ext := sim_ext orders_except_2 royalty_down 20000000000 in
  let s := sim_world 0 0 [network_error] in
  new_events s (monitor_cycle sim_lib ext sim_bot "cool-cats-nft" s)
  = [ EAxiosGet (events_request sim_bot "cool-cats-nft" 10);
      EConsoleError "Failed to fetch listings:" "Network Error";
      EDelay 60000 ].
Proof.
  intros ext s.
  destruct (fetch_failure_polls_again sim_lib ext sim_bot "cool-cats-nft" s eq_refl)
    as (Hcycle & _).
  rewrite Hcycle. reflexivity.
Defined.

(** C10 on the instance of [main.js], built with and without a key. *)
Lemma api_key_is_never_stored_witness :
  constructor sim_lib (Some "0xkey") (Some "https://rpc") (Some "secret") no_overrides
  = Ok sim_bot
  /\ constructor sim_lib (Some "0xkey") (Some "https://rpc") None no_overrides
     = Ok sim_bot
  /\ Forall (fun r => x_api_key r = JUndefined)
       (requests (new_events (sim_world 0 0 [three_listings])
          (monitorCollection sim_lib (sim_ext orders_except_2 royalty_down 20000000000)
             sim_bot "cool-cats-nft" 2 (sim_world 0 0 [three_listings])))).
Proof.
  destruct (api_key_is_never_stored sim_lib
              (sim_ext orders_except_2 royalty_down 20000000000)
              (Some "0xkey") (Some "https://rpc") (Some "secret") None no_overrides
              sim_bot eq_refl) as (Hsame & _ & _ & _ & _ & _ & Hloop & _).
  split; [ reflexivity | split; [ rewrite <- Hsame; reflexivity | apply Hloop ] ].
Defined.

(** C2, as stated, on a batch of three listings whose second has no order:
    the purchase of the first goes through, the purchase of the second
    throws, and nothing at all is done for the third; the turn ends with
    the error log of the loop and the retry sleep. *)
Lemma batch_isolation_counterexample :
  let ext := sim_ext orders_except_2 royalty_down 20000000000 in
  let s := sim_world 0 0 [three_listings] in
  new_events s (monitor_cycle sim_lib ext sim_bot "cool-cats-nft" s)
  = [ EAxiosGet (events_request sim_bot "cool-cats-nft" 10);
      EConsoleLog "Found NFT #1 for 0.05 ETH";
      EAxiosGet (listings_request sim_bot "0xNFT" "1");
      ESeaportValidate ["order"] "0xWallet";
      ESeaportFulfillOrder "order" "0xWallet";
      EBuildTransaction "fulfil order";
      EGetGasPrice;
      ESendTransaction {| tx_request := "fulfil order"; gasPrice := Some 20000000000;
                          gasLimit := Some 300000 |};
      ETxWait "purchase";
      EConsoleLog "Bought NFT! TX: https://etherscan.io/tx/0xhash";
      EConsoleLog "Found NFT #2 for 0.05 ETH";
      EAxiosGet (listings_request sim_bot "0xNFT" "2");
      EConsoleError "BuyNow error:" "No valid order found";
      EConsoleError "Monitoring error:" "No valid order found";
      EDelay 30000 ]
  /\ existsb (fun r => String.eqb (url r) (url (listings_request sim_bot "0xNFT" "3")))
             (requests (new_events s (monitor_cycle sim_lib ext sim_bot "cool-cats-nft" s)))
     = false
  /\ fst (buyNow sim_lib ext sim_bot "0xNFT" "3" 0.05%float s)
     = Ok {| txHash := JString "0xhash"; nftId := "3"; price := 0.05%float |}.
Proof. intros ext s. repeat split. Qed.

(** C3, as stated, on a fetch that fails with a network error: the one
    sleep of the turn lasts [pollingInterval] (60000 ms), not
    [errorRetryDelay] (30000 ms). *)
Lemma fetch_retry_delay_counterexample :
  let ext := sim_ext orders_except_2 royalty_down 20000000000 in
  let s := sim_world 0 0 [network_error] in
  fetch_failed (fst (axios_get_events ext (events_request sim_bot "cool-cats-nft" 10)
                       (world s))) = true
  /\ errorRetryDelay (config sim_bot) = 30000
  /\ delays (new_events s (monitor_cycle sim_lib ext sim_bot "cool-cats-nft" s)) = [60000]
  /\ delays (new_events s (monitor_cycle sim_lib ext sim_bot "cool-cats-nft" s))
     <> [errorRetryDelay (config sim_bot)].
Proof. intros ext s. repeat split. discriminate. Qed.


(** * Further properties of the code *)

(** Unfolds the monad operations and computes. *)
Ltac step_in :=
  unfold try_catch, bind, call, lift, throw, ret, console_error, console_log, emit;
  simpl.

(** Splits on whatever the next step of a method branches on: the
    answer of a collaborator, a field of a reply, a comparison. *)
Ltac next_branch :=
  match goal with
  | |- context [match ?x with _ => _ end] =>
    lazymatch x with
    | context [match _ with _ => _ end] => fail
    | _ => first [ destruct x as [[?|?] ?] eqn:? | destruct x eqn:? ]; simpl
    end
  end.

Lemma delays_app (l r : list Event) : delays (l ++ r) = delays l ++ delays r.
Proof. apply flat_map_app. Qed.

Lemma not_delay_none (evs : list Event) : Forall not_delay evs -> delays evs = [].
Proof.
  induction 1 as [|ev evs H _ IH]; simpl; auto.
  destruct ev; simpl in *; auto; contradiction.
Qed.

Section Construction.
Variable lib : Lib.

(** X1. The constructor succeeds exactly when the private key and the RPC
    URL are non-empty strings, the key yields an address and the
    configured [maxGasPrice] parses as gwei; the instance then holds that
    address, the Seaport address of [config.js], the defaults overridden
    by [config], and the parsed ceiling. *)
Theorem constructor_succeeds_iff (pk rpc key : option string) (cfg : ConfigOverrides)
    (this : Bot) :
  constructor lib pk rpc key cfg = Ok this <->
  exists k u addr g,
    pk = Some k /\ k <> "" /\ rpc = Some u /\ u <> ""
    /\ computeAddress lib k = Ok addr
    /\ parseGwei lib (numberToString lib (maxGasPrice (spread DEFAULT_CONFIG cfg))) = Ok g
    /\ this = {| provider := {| connection_url := u |};
                 wallet := {| wallet_address := addr;
                              wallet_provider := {| connection_url := u |} |};
                 seaport := {| seaport_signer :=
                                 {| wallet_address := addr;
                                    wallet_provider := {| connection_url := u |} |};
                               seaport_contractAddress := SEAPORT_ADDRESS |};
                 config := spread DEFAULT_CONFIG cfg;
                 maxGasPriceWei := g;
                 openseaApiKey := JUndefined |}.
Proof.
  unfold constructor. split.
  - destruct pk as [k|]; simpl; [|discriminate].
    destruct (String.eqb k "") eqn:Ek; simpl; [discriminate|].
    destruct rpc as [u|]; simpl; [|discriminate].
    destruct (String.eqb u "") eqn:Eu; simpl; [discriminate|].
    destruct (computeAddress lib k) as [addr|e] eqn:Ea; simpl; [|discriminate].
    destruct (parseGwei lib _) as [g|e] eqn:Eg; simpl; [|discriminate].
    intros [= <-]. exists k, u, addr, g.
    apply String.eqb_neq in Ek. apply String.eqb_neq in Eu.
    repeat split; auto.
  - intros (k & u & addr & g & -> & Hk & -> & Hu & Ea & Eg & ->).
    apply String.eqb_neq in Hk. apply String.eqb_neq in Hu.
    unfold falsy_arg. rewrite Hk, Hu. cbn [orb]. rewrite Ea. cbn [res_bind].
    rewrite Eg. reflexivity.
Qed.

End Construction.

Section Further.
Context {W : Type}.
Variable lib : Lib.
Variable ext : Ext W.

Ltac appends_methods :=
  unfold monitorCollection, monitor_cycle, process_listing, dispatch, makeOffer,
    buyNow, postOfferToOpenSea, getRoyaltyInfo, approveWeth, wrapEthIfNeeded,
    fetchListingOrder, fetchNewListings;
  repeat first [ apply delay_appends | appends_step ]; simpl; auto.

(** *** main.js *)

(** X2. [main] ends the process, with status 1, exactly when the
    constructor throws.  Once the bot is built, nothing that the
    marketplace, the chain or Seaport does ends the process: after any
    number of turns it is still monitoring. *)
Theorem main_exits_only_on_construction (env : Env) (n : nat) (s : St W) :
  fst (main lib ext env n s)
  = Ok match constructor lib (PRIVATE_KEY env) (INFURA_URL env) (OPENSEA_API_KEY env)
               main_config with
       | Ok _ => None
       | Throw _ => Some 1
       end.
Proof.
  unfold main, try_catch, bind, lift.
  destruct (constructor lib _ _ _ main_config) as [bot|e].
  - pose proof (monitorCollection_never_throws lib ext bot "cool-cats-nft" n s) as H.
    destruct (monitorCollection lib ext bot "cool-cats-nft" n s) as [r s1].
    simpl in H. subst r. reflexivity.
  - reflexivity.
Qed.

(** X3. With [PRIVATE_KEY] or [INFURA_URL] unset or empty, [main] logs
    the fatal error and exits with status 1, and that log line is all it
    does: no request is sent and no chain call is made. *)
Theorem main_without_credentials (env : Env) (n : nat) (s : St W) :
  falsy_arg (PRIVATE_KEY env) || falsy_arg (INFURA_URL env) = true ->
  main lib ext env n s
  = (Ok (Some 1),
     mkSt (world s)
          (trace s ++ [EConsoleError "Fatal error:" "Missing required constructor parameters"])).
Proof.
  intros H. unfold main, constructor. rewrite H. reflexivity.
Qed.

(** *** The request helpers *)

(** X4. The three GET helpers never throw, whatever the marketplace
    answers: each returns a value (the batch or the empty batch; the
    order or nothing; the royalty info or nothing) after exactly one
    request. *)
Theorem get_helpers_never_throw (this : Bot) (slug : string) (limit : Z)
    (c : Address) (t : TokenId) (s : St W) :
  (exists ls, fst (fetchNewListings ext this slug limit s) = Ok ls)
  /\ (exists o, fst (fetchListingOrder ext this c t s) = Ok o)
  /\ (exists r, fst (getRoyaltyInfo ext this c s) = Ok r)
  /\ List.length (requests (new_events s (fetchNewListings ext this slug limit s))) = 1%nat
  /\ List.length (requests (new_events s (fetchListingOrder ext this c t s))) = 1%nat
  /\ List.length (requests (new_events s (getRoyaltyInfo ext this c s))) = 1%nat.
Proof.
  repeat split.
  - rewrite fetchNewListings_run. simpl. destruct (fetch_failed _); eexists; reflexivity.
  - unfold fetchListingOrder. step_in. next_branch.
    + destruct (listings_data _); simpl; eexists; reflexivity.
    + eexists; reflexivity.
  - unfold getRoyaltyInfo. step_in. next_branch.
    + destruct (contract_data _); simpl; eexists; reflexivity.
    + eexists; reflexivity.
  - rewrite fetchNewListings_requests. reflexivity.
  - rewrite fetchListingOrder_requests. reflexivity.
  - rewrite getRoyaltyInfo_requests. reflexivity.
Qed.

(** *** The monitoring loop *)

(** X5. Listings without an asset are skipped without a trace: a batch
    is processed exactly as the batch of its listings that have an asset,
    and a batch with none leaves everything as it was. *)
Theorem listings_without_asset_are_skipped (this : Bot) (ls : list Listing) (s : St W) :
  for_of ls (process_listing lib ext this) s
  = for_of (filter has_asset ls) (process_listing lib ext this) s
  /\ (forallb (fun l => negb (has_asset l)) ls = true ->
      for_of ls (process_listing lib ext this) s = (Ok tt, s)).
Proof.
  split.
  - revert s. induction ls as [|l ls IH]; intros s; simpl; auto.
    unfold has_asset at 1. destruct (asset l) as [a|] eqn:Ea; simpl.
    + unfold bind. destruct (process_listing lib ext this l s) as [[u|e] s1]; auto.
    + unfold process_listing at 1. rewrite Ea. unfold bind, ret. apply IH.
  - revert s. induction ls as [|l ls IH]; intros s; simpl; auto.
    unfold has_asset at 1. destruct (asset l) as [a|] eqn:Ea; simpl; [discriminate|].
    intros H. unfold process_listing at 1. rewrite Ea. unfold bind, ret. apply IH, H.
Qed.

Lemma monitor_cycle_delays (this : Bot) (slug : string) (s : St W) :
  exists d, delays (new_events s (monitor_cycle lib ext this slug s)) = [d]
            /\ (d = pollingInterval (config this) \/ d = errorRetryDelay (config this)).
Proof.
  assert (A1 : appends not_delay (fetchNewListings ext this slug 10)) by appends_methods.
  rewrite monitor_cycle_run.
  destruct (fetchNewListings ext this slug 10 s) as [[ls|e] s1] eqn:Ef;
    destruct (appends_run _ _ _ _ _ A1 Ef) as (e1 & E1 & F1).
  - assert (A2 : appends not_delay (for_of ls (process_listing lib ext this)))
      by appends_methods.
    destruct (for_of ls (process_listing lib ext this) s1) as [[u|e] s2] eqn:El;
      destruct (appends_run _ _ _ _ _ A2 El) as (e2 & E2 & F2).
    + exists (pollingInterval (config this)). split; [|auto].
      unfold delay, new_events; simpl. rewrite E2, E1.
      repeat rewrite <- app_assoc. rewrite skipn_length_app.
      rewrite !delays_app, (not_delay_none _ F1), (not_delay_none _ F2). reflexivity.
    + exists (errorRetryDelay (config this)). split; [|auto].
      rewrite monitor_catch_ok. unfold new_events; simpl. rewrite E2, E1.
      repeat rewrite <- app_assoc. rewrite skipn_length_app.
      rewrite !delays_app, (not_delay_none _ F1), (not_delay_none _ F2). reflexivity.
  - exists (errorRetryDelay (config this)). split; [|auto].
    rewrite monitor_catch_ok. unfold new_events; simpl. rewrite E1.
    repeat rewrite <- app_assoc. rewrite skipn_length_app.
    rewrite !delays_app, (not_delay_none _ F1). reflexivity.
Qed.

(** X6. The loop never spins: whatever happens in a turn, the turn
    sleeps exactly once, for [pollingInterval] or for [errorRetryDelay],
    so [n] turns contain exactly [n] sleeps. *)
Theorem every_turn_sleeps_once (this : Bot) (slug : string) (n : nat) (s : St W) :
  let slept := delays (new_events s (monitor_loop lib ext this slug n s)) in
  List.length slept = n
  /\ Forall (fun d => d = pollingInterval (config this)
                      \/ d = errorRetryDelay (config this)) slept.
Proof.
  revert s. induction n as [|n IH]; intros s; simpl.
  - unfold ret, new_events. simpl. rewrite skipn_all. simpl. auto.
  - destruct (monitor_cycle_delays this slug s) as (d & Hd & Hor).
    assert (Ac : appends (fun _ => True) (monitor_cycle lib ext this slug))
      by appends_methods.
    destruct (Ac s) as (e1 & E1 & _).
    unfold bind.
    pose proof (monitor_cycle_never_throws lib ext this slug s) as Hok.
    destruct (monitor_cycle lib ext this slug s) as [r s1] eqn:Ec.
    simpl in Hok, E1. subst r.
    assert (Al : appends (fun _ => True) (monitor_loop lib ext this slug n)).
    { clear. induction n as [|n IHn]; simpl.
      - apply appends_ret.
      - apply appends_bind; [ appends_methods | intros _; exact IHn ]. }
    destruct (Al s1) as (e2 & E2 & _).
    destruct (new_events_split s s1 (monitor_loop lib ext this slug n s1) e1 e2 E1 E2)
      as [N1 N2].
    rewrite N1, delays_app.
    assert (N0 : new_events s (Ok tt, s1) = e1).
    { unfold new_events; simpl. rewrite E1. apply skipn_length_app. }
    rewrite N0 in Hd. rewrite Hd.
    specialize (IH s1). simpl in IH. rewrite N2 in IH. destruct IH as [IHl IHf].
    simpl. split; [ f_equal; exact IHl | constructor; auto ].
Qed.


(** *** Purchase executor, in every world *)

(** X7. Whatever the collaborators answer, one call of [buyNow] sends
    exactly one marketplace request (the order lookup), submits at most
    one transaction, and never wraps, approves, creates or posts an order,
    or sleeps. *)
Theorem buyNow_effects_are_bounded (this : Bot) (c : Address) (t : TokenId) (p : float)
    (s : St W) :
  let evs := new_events s (buyNow lib ext this c t p s) in
  requests evs = [listings_request this c t]
  /\ (List.length (submitted evs) <= 1)%nat
  /\ deposits evs = [] /\ approvals evs = []
  /\ created_orders evs = [] /\ posted evs = [] /\ delays evs = [].
Proof.
  unfold buyNow, fetchListingOrder. step_in.
  repeat next_branch; read_trace; repeat split; auto.
Qed.


(** X8. A purchase result is only ever returned after one transaction was
    submitted, with the fixed gas limit of 300000 and a gas price within
    the ceiling; the result carries the token and the price that were
    passed in, and nothing was logged as an error. *)
Theorem buyNow_result_means_submitted (this : Bot) (c : Address) (t : TokenId)
    (p : float) (s : St W) (r : PurchaseResult) :
  fst (buyNow lib ext this c t p s) = Ok r ->
  let evs := new_events s (buyNow lib ext this c t p s) in
  nftId r = t /\ price r = p
  /\ console_errors evs = []
  /\ exists tx g, submitted evs = [tx]
                  /\ gasPrice tx = Some g /\ g <= maxGasPriceWei this
                  /\ gasLimit tx = Some 300000.
Proof.
  unfold buyNow, fetchListingOrder. step_in.
  repeat next_branch; try discriminate; intros [= <-]; read_trace;
    repeat split; auto.
  eexists; eexists; repeat split; try reflexivity.
  match goal with H : (?g >? _) = false |- ?g <= _ =>
    rewrite Z.gtb_ltb in H; apply Z.ltb_ge in H; exact H end.
Qed.

(** X9. Whenever [buyNow] throws, the last thing it did was to log that
    very error under "BuyNow error:"; the error reaches the caller
    unchanged. *)
Theorem buyNow_logs_what_it_throws (this : Bot) (c : Address) (t : TokenId)
    (p : float) (s : St W) (e : JsError) :
  fst (buyNow lib ext this c t p s) = Throw e ->
  last (new_events s (buyNow lib ext this c t p s)) EDateNow
  = EConsoleError "BuyNow error:" (message e).
Proof.
  unfold buyNow, fetchListingOrder. step_in.
  repeat next_branch; try discriminate; intros [= <-]; read_trace; reflexivity.
Qed.

(** X10. In a purchase whose transaction was submitted and whose receipt
    came back, the outcome is decided by [receipt.status === 0] alone:
    status 0 throws "Transaction failed" (the transaction has been sent
    all the same), any other status, or none, returns the result with the
    hash of the transaction. *)
Theorem buyNow_outcome_by_receipt (this : Bot) (c : Address) (t : TokenId) (p : float)
    (s : St W) (resp : ListingsResponse) (d : ListingsData) (o : Order) (os : list Order)
    (a0 : Action) (acts : list Action) (tx : Transaction) (g : Z)
    (txr : TxResponse) (rc : Receipt) (w1 w2 w3 w4 w5 w6 w7 : W) :
  axios_get_listings ext (listings_request this c t) (world s) = (Ok resp, w1) ->
  listings_data resp = Some d ->
  orders d = Some (o :: os) ->
  seaport_validate ext [protocol_data o] (wallet_address (wallet this)) w1 = (Ok true, w2) ->
  seaport_fulfillOrder ext (protocol_data o) (wallet_address (wallet this)) w2
    = (Ok (a0 :: acts), w3) ->
  buildTransaction ext a0 w3 = (Ok tx, w4) ->
  provider_getGasPrice ext w4 = (Ok g, w5) ->
  g <= maxGasPriceWei this ->
  let sent := {| tx_request := tx_request tx; gasPrice := Some g;
                 gasLimit := Some 300000 |} in
  wallet_sendTransaction ext sent w5 = (Ok txr, w6) ->
  txResponse_wait ext (tx_handle txr) w6 = (Ok rc, w7) ->
  let out := buyNow lib ext this c t p s in
  submitted (new_events s out) = [sent]
  /\ (status rc = Some 0 -> fst out = Throw (Error "Transaction failed"))
  /\ (status rc <> Some 0 ->
      out = (Ok {| txHash := hash txr; nftId := t; price := p |},
             mkSt w7 (trace s ++ [EAxiosGet (listings_request this c t);
                                  ESeaportValidate [protocol_data o]
                                    (wallet_address (wallet this));
                                  ESeaportFulfillOrder (protocol_data o)
                                    (wallet_address (wallet this));
                                  EBuildTransaction a0;
                                  EGetGasPrice;
                                  ESendTransaction sent;
                                  ETxWait (tx_handle txr)]))).
Proof.
  intros H1 Hd Ho H2 H3 H4 H5 Hg sent H6 H7 out. subst out.
  unfold buyNow, fetchListingOrder. step_in.
  rewrite H1; simpl. rewrite Hd, Ho; simpl. rewrite H2; simpl.
  rewrite H3; simpl. rewrite H4; simpl. rewrite H5; simpl.
  replace (g >? maxGasPriceWei this) with false
    by (symmetry; rewrite Z.gtb_ltb; apply Z.ltb_ge; lia).
  simpl. fold sent. rewrite H6; simpl. rewrite H7; simpl.
  unfold status_is_zero. destruct (status rc) as [n|]; simpl.
  - destruct (n =? 0) eqn:En; simpl.
    + apply Z.eqb_eq in En. subst n. read_trace.
      repeat split; auto. intros Hne. contradiction.
    + apply Z.eqb_neq in En. repeat split.
      * read_trace. reflexivity.
      * intros [= ->]. contradiction.
      * intros _. repeat rewrite <- app_assoc. reflexivity.
  - repeat split.
    + read_trace. reflexivity.
    + discriminate.
    + intros _. repeat rewrite <- app_assoc. reflexivity.
Qed.

(** X11. An order that Seaport reports as invalid stops the purchase
    with "Invalid order" right after the validation: nothing is fulfilled,
    no gas price is read, nothing is submitted. *)
Theorem buyNow_invalid_order (this : Bot) (c : Address) (t : TokenId) (p : float)
    (s : St W) (resp : ListingsResponse) (d : ListingsData) (o : Order) (os : list Order)
    (w1 w2 : W) :
  axios_get_listings ext (listings_request this c t) (world s) = (Ok resp, w1) ->
  listings_data resp = Some d ->
  orders d = Some (o :: os) ->
  seaport_validate ext [protocol_data o] (wallet_address (wallet this)) w1 = (Ok false, w2) ->
  buyNow lib ext this c t p s
  = (Throw (Error "Invalid order"),
     mkSt w2 (trace s ++ [EAxiosGet (listings_request this c t);
                          ESeaportValidate [protocol_data o] (wallet_address (wallet this));
                          EConsoleError "BuyNow error:" "Invalid order"])).
Proof.
  intros H1 Hd Ho H2.
  unfold buyNow, fetchListingOrder. step_in.
  rewrite H1; simpl. rewrite Hd, Ho; simpl. rewrite H2; simpl.
  repeat rewrite <- app_assoc. reflexivity.
Qed.


(** *** Offer executor, in every world *)

Ltac in_makeOffer :=
  unfold makeOffer, wrapEthIfNeeded, approveWeth, getRoyaltyInfo, postOfferToOpenSea,
    royalty_amount, BigNumber_mul, BigNumber_div, res_bind;
  step_in.

(** X12. Whatever the collaborators answer, one call of [makeOffer]
    never submits a wallet transaction of the purchase kind, never sleeps,
    wraps at most once, approves at most once and only Seaport, hands at
    most one order to Seaport and posts at most one signed order; a post
    is always preceded by the creation of the order. *)
Theorem makeOffer_effects_are_bounded (this : Bot) (c : Address) (t : TokenId)
    (amt : float) (days : Z) (s : St W) :
  let evs := new_events s (makeOffer lib ext this c t amt days s) in
  submitted evs = [] /\ delays evs = []
  /\ (List.length (deposits evs) <= 1)%nat
  /\ (List.length (approvals evs) <= 1)%nat
  /\ Forall (fun a => fst a = SEAPORT_ADDRESS) (approvals evs)
  /\ (List.length (created_orders evs) <= 1)%nat
  /\ (List.length (posted evs) <= List.length (created_orders evs))%nat.
Proof.
  in_makeOffer.
  repeat next_branch; read_trace; repeat split; auto; repeat constructor.
Qed.

(** X13. Whenever [makeOffer] throws, the last thing it did was to log
    that very error under "MakeOffer error:"; the error reaches the caller
    unchanged. *)
Theorem makeOffer_logs_what_it_throws (this : Bot) (c : Address) (t : TokenId)
    (amt : float) (days : Z) (s : St W) (e : JsError) :
  fst (makeOffer lib ext this c t amt days s) = Throw e ->
  last (new_events s (makeOffer lib ext this c t amt days s)) EDateNow
  = EConsoleError "MakeOffer error:" (message e).
Proof.
  in_makeOffer.
  repeat next_branch; try discriminate; intros [= <-]; read_trace; reflexivity.
Qed.

(** X14. An offer result is only ever returned after exactly one order
    was handed to Seaport and exactly one signed order was posted.  The
    order offers the amount that [parseEther] made of the requested
    amount, in WETH, for the requested token delivered to the wallet of
    the bot; the result repeats the requested amount, and its expiration
    is the end time of that order, in milliseconds. *)
Theorem makeOffer_result_matches_order (this : Bot) (c : Address) (t : TokenId)
    (amt : float) (days : Z) (s : St W) (r : OfferResult) :
  fst (makeOffer lib ext this c t amt days s) = Ok r ->
  let evs := new_events s (makeOffer lib ext this c t amt days s) in
  offerAmount r = amt
  /\ console_errors evs = []
  /\ exists terms signed wei royalty,
       created_orders evs = [terms] /\ posted evs = [signed]
       /\ parseEther lib (numberToString lib amt) = Ok wei
       /\ offer terms = [ {| oi_itemType := ERC20; oi_token := WETH_ADDRESS;
                             oi_amount := wei |} ]
       /\ consideration terms
          = [ {| ci_itemType := ERC721; ci_token := c; ci_identifier := Some t;
                 ci_amount := None;
                 ci_recipient := JString (wallet_address (wallet this)) |};
              royalty ]
       /\ expiration r = endTime terms * 1000.
Proof.
  in_makeOffer.
  repeat next_branch; try discriminate; intros [= <-]; read_trace;
    (split; [reflexivity|]); (split; [reflexivity|]);
    do 4 eexists; repeat split; reflexivity.
Qed.


(** X15. An amount whose decimal text [parseEther] rejects ends the offer
    at once: the error is logged and rethrown, and neither the chain nor
    the marketplace nor Seaport has been called. *)
Theorem makeOffer_rejects_unparsable_amount (this : Bot) (c : Address) (t : TokenId)
    (amt : float) (days : Z) (s : St W) (e : JsError) :
  parseEther lib (numberToString lib amt) = Throw e ->
  makeOffer lib ext this c t amt days s
  = (Throw e, mkSt (world s) (trace s ++ [EConsoleError "MakeOffer error:" (message e)])).
Proof.
  intros H. unfold makeOffer. step_in. rewrite H. reflexivity.
Qed.

(** Steps that send no request, create no order and approve nothing. *)
Lemma quiet_steps (evs : list Event) :
  Forall (fun ev => requests [ev] = [] /\ created_orders [ev] = []) evs ->
  requests evs = [] /\ created_orders evs = [].
Proof.
  induction 1 as [|ev evs (Hr & Hc) _ (IHr & IHc)]; simpl; auto.
  simpl in Hr, Hc. rewrite app_nil_r in Hr, Hc.
  fold (requests evs). fold (created_orders evs).
  rewrite Hr, Hc, IHr, IHc. auto.
Qed.

Lemma no_approval_steps (evs : list Event) :
  Forall (fun ev => approvals [ev] = []) evs -> approvals evs = [].
Proof.
  induction 1 as [|ev evs Ha _ IH]; simpl; auto.
  simpl in Ha. rewrite app_nil_r in Ha.
  fold (approvals evs). rewrite Ha, IH. auto.
Qed.

(** X16. A failure while wrapping or approving ends the offer there: the
    error is logged and rethrown, no royalty lookup is made, no order is
    created and nothing is posted; after a failed wrap nothing is approved
    either. *)
Theorem makeOffer_stops_at_failed_prerequisite (this : Bot) (c : Address) (t : TokenId)
    (amt : float) (days : Z) (s s1 : St W) (wei : Z) (e : JsError) :
  parseEther lib (numberToString lib amt) = Ok wei ->
  wrapEthIfNeeded lib ext this wei s = (Throw e, s1)
  \/ (exists s0, wrapEthIfNeeded lib ext this wei s = (Ok tt, s0)
                 /\ approveWeth lib ext this wei s0 = (Throw e, s1)) ->
  let out := makeOffer lib ext this c t amt days s in
  out = (Throw e, mkSt (world s1) (trace s1 ++ [EConsoleError "MakeOffer error:" (message e)]))
  /\ requests (new_events s out) = []
  /\ created_orders (new_events s out) = []
  /\ (wrapEthIfNeeded lib ext this wei s = (Throw e, s1) -> approvals (new_events s out) = []).
Proof.
  intros Hparse Hfail out.
  assert (Aw : appends (fun ev => requests [ev] = [] /\ created_orders [ev] = [])
                 (wrapEthIfNeeded lib ext this wei)) by appends_methods.
  assert (Aw' : appends (fun ev => approvals [ev] = [])
                 (wrapEthIfNeeded lib ext this wei)) by appends_methods.
  assert (Aa : appends (fun ev => requests [ev] = [] /\ created_orders [ev] = [])
                 (approveWeth lib ext this wei)) by appends_methods.
  assert (Eout : out = (Throw e, mkSt (world s1)
                   (trace s1 ++ [EConsoleError "MakeOffer error:" (message e)]))).
  { subst out. unfold makeOffer, try_catch.
    erewrite bind_Ok; [| unfold lift; rewrite Hparse; reflexivity ].
    destruct Hfail as [Hw | (s0 & Hw & Ha)].
    - erewrite bind_Throw; [| exact Hw ]. reflexivity.
    - erewrite bind_Ok; [| exact Hw ]. erewrite bind_Throw; [| exact Ha ]. reflexivity. }
  split; [exact Eout|].
  assert (Hpre : exists pre, trace s1 = trace s ++ pre
                   /\ requests pre = [] /\ created_orders pre = []
                   /\ (wrapEthIfNeeded lib ext this wei s = (Throw e, s1) ->
                       approvals pre = [])).
  { destruct Hfail as [Hw | (s0 & Hw & Ha)].
    - destruct (appends_run _ _ _ _ _ Aw Hw) as (e1 & E1 & F1).
      destruct (appends_run _ _ _ _ _ Aw' Hw) as (e1' & E1' & F1').
      rewrite E1 in E1'. apply app_inv_head in E1'. subst e1'.
      destruct (quiet_steps _ F1) as (Hr & Hc).
      exists e1. repeat split; auto. intros _. apply no_approval_steps, F1'.
    - destruct (appends_run _ _ _ _ _ Aw Hw) as (e1 & E1 & F1).
      destruct (appends_run _ _ _ _ _ Aa Ha) as (e2 & E2 & F2).
      destruct (quiet_steps _ (proj2 (Forall_app _ _ _) (conj F1 F2))) as (Hr & Hc).
      exists (e1 ++ e2). split; [rewrite E2, E1, app_assoc; reflexivity|].
      repeat split; auto.
      intros Hw'. rewrite Hw in Hw'. discriminate. }
  destruct Hpre as (pre & Epre & Rpre & Cpre & Apre).
  assert (N : new_events s out = pre ++ [EConsoleError "MakeOffer error:" (message e)]).
  { rewrite Eout. unfold new_events; simpl. rewrite Epre, <- app_assoc.
    apply skipn_length_app. }
  rewrite N. unfold requests, created_orders, approvals. rewrite !flat_map_app.
  fold (requests pre). fold (created_orders pre). fold (approvals pre).
  rewrite Rpre, Cpre. repeat split; auto.
  intros Hw. rewrite (Apre Hw). reflexivity.
Qed.

(** X17. The offer expires at [now + expirationDays] days, cut to the
    whole second: the end time of the created order, in milliseconds, is
    at most that instant and less than one second before it. *)
Theorem offer_expiration_is_cut_to_the_second (this : Bot) (c : Address) (t : TokenId)
    (amt : float) (days : Z) (s s1 s2 s3 : St W) (wei : Z) (looked : option RoyaltyInfo)
    (now : Z) (w4 : W) (leg : Z) :
  parseEther lib (numberToString lib amt) = Ok wei ->
  wrapEthIfNeeded lib ext this wei s = (Ok tt, s1) ->
  approveWeth lib ext this wei s1 = (Ok tt, s2) ->
  getRoyaltyInfo ext this c s2 = (Ok looked, s3) ->
  Date_now ext (world s3) = (now, w4) ->
  royalty_amount wei (basisPoints match looked with
                                  | Some i => i
                                  | None => fallback_royalty
                                  end) = Ok leg ->
  map endTime (created_orders (new_events s (makeOffer lib ext this c t amt days s)))
    = [now / 1000 + days * 86400]
  /\ now + days * 86400000 - 1000 < (now / 1000 + days * 86400) * 1000
     <= now + days * 86400000.
Proof.
  intros Hparse Hwrap Happrove Hlook Hnow Hleg. split.
  - rewrite (makeOffer_creates lib ext this c t amt days s s1 s2 s3 wei looked now w4 leg
               Hparse Hwrap Happrove Hlook Hnow Hleg). reflexivity.
  - pose proof (Z.div_mod now 1000 ltac:(lia)) as Hdm.
    pose proof (Z.mod_pos_bound now 1000 ltac:(lia)) as Hmb.
    lia.
Qed.

(** X18. A royalty reply is used as it comes: whenever the lookup request
    succeeds and carries a rate, the order pays that rate to the
    [payout_address] of the reply, also when that address is undefined
    and also when the rate is 0; the fallback plays no part. *)
Theorem royalty_reply_is_used_as_is (this : Bot) (c : Address) (t : TokenId)
    (amt : float) (days : Z) (s s1 s2 : St W) (wei : Z) (resp : ContractResponse)
    (d : ContractData) (bp : Z) (w3 : W) :
  parseEther lib (numberToString lib amt) = Ok wei ->
  wrapEthIfNeeded lib ext this wei s = (Ok tt, s1) ->
  approveWeth lib ext this wei s1 = (Ok tt, s2) ->
  axios_get_asset_contract ext (asset_contract_request this c) (world s2) = (Ok resp, w3) ->
  contract_data resp = Some d ->
  dev_seller_fee_basis_points d = Some bp ->
  map (fun terms => map (fun leg => (ci_amount leg, ci_recipient leg)) (consideration terms))
      (created_orders (new_events s (makeOffer lib ext this c t amt days s)))
  = [[(None, JString (wallet_address (wallet this)));
      (Some (Z.quot (wei * bp) 10000), payout_address d)]].
Proof.
  intros Hparse Hwrap Happrove Hget Hd Hbp.
  assert (Hlook : getRoyaltyInfo ext this c s2
            = (Ok (Some {| recipient := payout_address d; basisPoints := Some bp |}),
               mkSt w3 (trace s2 ++ [EAxiosGet (asset_contract_request this c)]))).
  { unfold getRoyaltyInfo. step_in. rewrite Hget; simpl. rewrite Hd; simpl.
    rewrite Hbp. reflexivity. }
  destruct (Date_now ext w3) as [now w4] eqn:Hnow.
  rewrite (makeOffer_creates lib ext this c t amt days s s1 s2 _ wei _ now w4
             (Z.quot (wei * bp) 10000) Hparse Hwrap Happrove Hlook Hnow eq_refl).
  reflexivity.
Qed.

End Further.

(** *** Prices that are not numbers *)

Lemma SFcompare_refl (x : spec_float) :
  x = S754_nan \/ SFcompare x x = Some Eq.
Proof.
  destruct x as [sx|sx| |sx mx ex]; simpl; auto; right.
  - destruct sx; reflexivity.
  - destruct sx; rewrite Z.compare_refl, Pos.compare_cont_refl; reflexivity.
Qed.

Lemma SFcompare_nan_r (x : spec_float) : SFcompare x S754_nan = None.
Proof. destruct x; reflexivity. Qed.

Lemma is_nan_Prim2SF (x : float) : is_nan x = true -> Prim2SF x = S754_nan.
Proof.
  unfold is_nan. rewrite eqb_spec. unfold SFeqb.
  destruct (SFcompare_refl (Prim2SF x)) as [H|H]; auto.
  rewrite H. discriminate.
Qed.

(** X19. Nothing is ever bought at a price, or under a threshold, that is
    not a number: with [NaN] on either side of the comparison the listing
    is answered with an offer. *)
Theorem nan_is_never_bought (cfg : Config) (c : Address) (t : TokenId) (p : float) :
  is_nan p = true \/ is_nan (buyThreshold cfg) = true ->
  classify cfg c t p = Offer c t (p * offerPercentage cfg)%float.
Proof.
  intros H. unfold classify.
  replace (p <? buyThreshold cfg)%float with false; [reflexivity|].
  symmetry. rewrite ltb_spec. unfold SFltb.
  destruct H as [H|H]; rewrite (is_nan_Prim2SF _ H).
  - reflexivity.
  - rewrite SFcompare_nan_r. reflexivity.
Qed.


(** ** The further properties at work in the concrete world *)

(** X3 with [PRIVATE_KEY] unset. *)
Lemma main_without_credentials_witness :
  main sim_lib (sim_ext orders_except_2 royalty_down 20000000000) env_without_key 5
       (sim_world 0 0 [three_listings])
  = (Ok (Some 1),
     mkSt (world (sim_world 0 0 [three_listings]))
          [EConsoleError "Fatal error:" "Missing required constructor parameters"]).
Proof.
  exact (main_without_credentials sim_lib (sim_ext orders_except_2 royalty_down 20000000000)
           env_without_key 5 (sim_world 0 0 [three_listings]) eq_refl).
Defined.

(** X8 on the purchase of token 1 at 20 gwei. *)
Lemma buyNow_result_means_submitted_witness :
  let ext := sim_ext orders_except_2 royalty_down 20000000000 in
  let s := sim_world 0 0 [] in
  submitted (new_events s (buyNow sim_lib ext sim_bot "0xNFT" "1" 0.05%float s))
  = [ {| tx_request := "fulfil order"; gasPrice := Some 20000000000;
         gasLimit := Some 300000 |} ]
  /\ console_errors (new_events s (buyNow sim_lib ext sim_bot "0xNFT" "1" 0.05%float s)) = [].
Proof.
  intros ext s.
  destruct (buyNow_result_means_submitted sim_lib ext sim_bot "0xNFT" "1" 0.05%float s
              {| txHash := JString "0xhash"; nftId := "1"; price := 0.05%float |} eq_refl)
    as (_ & _ & Hquiet & _).
  split; [reflexivity | exact Hquiet].
Defined.

(** X9 on token 2, which has no listed order. *)
Lemma buyNow_logs_what_it_throws_witness :
  let ext := sim_ext orders_except_2 royalty_down 20000000000 in
  let s := sim_world 0 0 [] in
  last (new_events s (buyNow sim_lib ext sim_bot "0xNFT" "2" 0.05%float s)) EDateNow
  = EConsoleError "BuyNow error:" "No valid order found".
Proof.
  intros ext s.
  exact (buyNow_logs_what_it_throws sim_lib ext sim_bot "0xNFT" "2" 0.05%float s
           (Error "No valid order found") eq_refl).
Defined.

(** X10 on a receipt with status 1. *)
Lemma buyNow_outcome_by_receipt_witness :
  let ext := sim_ext orders_except_2 royalty_down 20000000000 in
  let s := sim_world 0 0 [] in
  fst (buyNow sim_lib ext sim_bot "0xNFT" "1" 0.05%float s)
  = Ok {| txHash := JString "0xhash"; nftId := "1"; price := 0.05%float |}.
Proof.
  intros ext s.
  destruct (buyNow_outcome_by_receipt sim_lib ext sim_bot "0xNFT" "1" 0.05%float s
              _ _ _ _ _ _ _ 20000000000 _ {| status := Some 1 |} _ _ _ _ _ _ _
              eq_refl eq_refl eq_refl eq_refl eq_refl eq_refl eq_refl
              ltac:(discriminate) eq_refl eq_refl) as (_ & _ & Hok).
  rewrite (Hok ltac:(discriminate)). reflexivity.
Defined.

(** X11 in a world whose Seaport finds the order invalid. *)
Lemma buyNow_invalid_order_witness :
  let ext := sim_ext_with (Ok false) deposit_reverts
               (sim_ext orders_except_2 royalty_down 20000000000) in
  let s := sim_world 0 0 [] in
  new_events s (buyNow sim_lib ext sim_bot "0xNFT" "1" 0.05%float s)
  = [ EAxiosGet (listings_request sim_bot "0xNFT" "1");
      ESeaportValidate ["order"] "0xWallet";
      EConsoleError "BuyNow error:" "Invalid order" ].
Proof.
  intros ext s.
  rewrite (buyNow_invalid_order sim_lib ext sim_bot "0xNFT" "1" 0.05%float s
             _ _ _ _ _ _ eq_refl eq_refl eq_refl eq_refl).
  reflexivity.
Defined.

(** X13 on an offer of 1 ETH from a wallet that cannot pay the deposit. *)
Lemma makeOffer_logs_what_it_throws_witness :
  let ext := sim_ext_with (Ok true) deposit_reverts
               (sim_ext orders_except_2 royalty_down 20000000000) in
  let s := sim_world 0 0 [] in
  last (new_events s (makeOffer sim_lib ext sim_bot "0xNFT" "7" 1%float 7 s)) EDateNow
  = EConsoleError "MakeOffer error:" "insufficient funds for intrinsic transaction cost".
Proof.
  intros ext s.
  exact (makeOffer_logs_what_it_throws sim_lib ext sim_bot "0xNFT" "7" 1%float 7 s
           (Error "insufficient funds for intrinsic transaction cost") eq_refl).
Defined.

(** X14 on an offer of 1 ETH for token 7. *)
Lemma makeOffer_result_matches_order_witness :
  let ext := sim_ext orders_except_2 royalty_down 20000000000 in
  let s := sim_world 0 0 [] in
  offerAmount {| orderHash := JString "0xorder"; offerAmount := 1%float;
                 expiration := 1700604800000 |} = 1%float
  /\ posted (new_events s (makeOffer sim_lib ext sim_bot "0xNFT" "7" 1%float 7 s))
     = ["signed order"].
Proof.
  intros ext s.
  destruct (makeOffer_result_matches_order sim_lib ext sim_bot "0xNFT" "7" 1%float 7 s
              {| orderHash := JString "0xorder"; offerAmount := 1%float;
                 expiration := 1700604800000 |} eq_refl)
    as (Hamount & _ & _).
  split; [exact Hamount | reflexivity].
Defined.

(** X15 on an offer of 1e-7 ETH. *)
Lemma makeOffer_rejects_unparsable_amount_witness :
  let ext := sim_ext orders_except_2 royalty_down 20000000000 in
  let s := sim_world 0 0 [] in
  new_events s (makeOffer sim_lib_tiny ext sim_bot "0xNFT" "7" 1e-7%float 7 s)
  = [EConsoleError "MakeOffer error:" "invalid decimal value"].
Proof.
  intros ext s.
  rewrite (makeOffer_rejects_unparsable_amount sim_lib_tiny ext sim_bot "0xNFT" "7"
             1e-7%float 7 s (Error "invalid decimal value") eq_refl).
  reflexivity.
Defined.

(** X16 on an offer of 1 ETH from a wallet that cannot pay the deposit. *)
Lemma makeOffer_stops_at_failed_prerequisite_witness :
  let ext := sim_ext_with (Ok true) deposit_reverts
               (sim_ext orders_except_2 royalty_down 20000000000) in
  let s := sim_world 0 0 [] in
  let out := makeOffer sim_lib ext sim_bot "0xNFT" "7" 1%float 7 s in
  requests (new_events s out) = []
  /\ created_orders (new_events s out) = []
  /\ approvals (new_events s out) = [].
Proof.
  intros ext s out.
  destruct (makeOffer_stops_at_failed_prerequisite sim_lib ext sim_bot "0xNFT" "7"
              1%float 7 s (snd (wrapEthIfNeeded sim_lib ext sim_bot 1000000000000000000 s))
              1000000000000000000
              (Error "insufficient funds for intrinsic transaction cost")
              eq_refl (or_introl eq_refl)) as (_ & Hr & Hc & Ha).
  split; [exact Hr | split; [exact Hc | exact (Ha eq_refl)]].
Defined.

(** X17 on an offer made 123 ms after a full second. *)
Lemma offer_expiration_is_cut_to_the_second_witness :
  let ext := sim_ext orders_except_2 royalty_down 20000000000 in
  let s := sim_world 0 0 [] in
  map endTime (created_orders (new_events s
                 (makeOffer sim_lib ext sim_bot "0xNFT" "7" 1%float 7 s)))
  = [1700604800].
Proof.
  intros ext s.
  destruct (offer_expiration_is_cut_to_the_second sim_lib ext sim_bot "0xNFT" "7" 1%float 7 s
              (snd (wrapEthIfNeeded sim_lib ext sim_bot 1000000000000000000 s))
              (snd (approveWeth sim_lib ext sim_bot 1000000000000000000
                      (snd (wrapEthIfNeeded sim_lib ext sim_bot 1000000000000000000 s))))
              _ 1000000000000000000 None 1700000000123 _ _
              eq_refl eq_refl eq_refl eq_refl eq_refl eq_refl) as (Hend & _).
  exact Hend.
Defined.

(** X18 on a reply without payout address and with rate 0. *)
Lemma royalty_reply_is_used_as_is_witness :
  let ext := sim_ext orders_except_2 royalty_blank 20000000000 in
  let s := sim_world 0 0 [] in
  map (fun terms => map (fun leg => (ci_amount leg, ci_recipient leg)) (consideration terms))
      (created_orders (new_events s (makeOffer sim_lib ext sim_bot "0xNFT" "7" 1%float 7 s)))
  = [[(None, JString "0xWallet"); (Some 0, JUndefined)]].
Proof.
  intros ext s.
  exact (royalty_reply_is_used_as_is sim_lib ext sim_bot "0xNFT" "7" 1%float 7 s
           (snd (wrapEthIfNeeded sim_lib ext sim_bot 1000000000000000000 s))
           (snd (approveWeth sim_lib ext sim_bot 1000000000000000000
                   (snd (wrapEthIfNeeded sim_lib ext sim_bot 1000000000000000000 s))))
           1000000000000000000 _ _ 0 _
           eq_refl eq_refl eq_refl eq_refl eq_refl eq_refl).
Defined.

(** X19 at a price that is [NaN], and under a threshold that is. *)
Lemma nan_is_never_bought_witness :
  classify DEFAULT_CONFIG "0xNFT" "1" nan = Offer "0xNFT" "1" (nan * 0.8)%float
  /\ classify {| buyThreshold := nan; offerPercentage := 0.8%float; maxGasPrice := 50%float;
                 pollingInterval := 60000; errorRetryDelay := 30000 |} "0xNFT" "1" 0%float
     = Offer "0xNFT" "1" (0 * 0.8)%float.
Proof.
  split.
  - exact (nan_is_never_bought DEFAULT_CONFIG "0xNFT" "1" nan (or_introl eq_refl)).
  - exact (nan_is_never_bought
             {| buyThreshold := nan; offerPercentage := 0.8%float; maxGasPrice := 50%float;
                pollingInterval := 60000; errorRetryDelay := 30000 |}
             "0xNFT" "1" 0%float (or_intror eq_refl)).
Defined.
